(** * Nest-egg Monte Carlo projector

    A shallow embedding of [nestegg_montecarlo.py]: the configuration
    constants, the per-year portfolio recurrence [portfolio_annuity] and the
    seeded driver [monte_carlo], followed by the properties the specification
    states about them.

    Numbers.  Every quantity of the program is a Python [float] or a numpy
    [float64], that is an IEEE 754 binary64 value.  The arithmetic kernel is
    written once over a class [Scalar] and instantiated twice: at Rocq's
    primitive binary64 [float] (what the program computes) and at the
    canonical rationals [Qc] (the exact arithmetic the specification's
    formulas are written in). *)

From Stdlib Require Import ZArith String List Bool Lia.
From Stdlib Require Import QArith Qcanon.
From Stdlib Require Import Floats.PrimFloat Uint63 DecimalString.
Import ListNotations.

Close Scope Qc_scope.
Close Scope Q_scope.

Set Warnings "-inexact-float".
Set Implicit Arguments.

(** ** Scalars *)

Class Scalar (A : Type) : Type := {
  of_int : Z -> A;          (* a Python int or numpy int64 promoted to A *)
  add : A -> A -> A;
  sub : A -> A -> A;
  mul : A -> A -> A;
  eqb : A -> A -> bool      (* Python's == on numbers *)
}.

Declare Scope scalar_scope.
Delimit Scope scalar_scope with num.
Notation "x + y" := (add x y) : scalar_scope.
Notation "x - y" := (sub x y) : scalar_scope.
Notation "x * y" := (mul x y) : scalar_scope.
Notation "x == y" := (eqb x y) (at level 70, no associativity) : scalar_scope.

(** int -> float64 conversion (exact below 2^53, rounded above). *)
Definition float_of_Z (z : Z) : float :=
  match z with
  | Z0 => 0%float
  | Zpos _ => PrimFloat.of_uint63 (Uint63.of_Z z)
  | Zneg p => PrimFloat.opp (PrimFloat.of_uint63 (Uint63.of_Z (Zpos p)))
  end.

#[export] Instance float_Scalar : Scalar float := {
  of_int := float_of_Z;
  add := PrimFloat.add;
  sub := PrimFloat.sub;
  mul := PrimFloat.mul;
  eqb := PrimFloat.eqb
}.

#[export] Instance Qc_Scalar : Scalar Qc := {
  of_int := fun z => Q2Qc (inject_Z z);
  add := Qcplus;
  sub := Qcminus;
  mul := Qcmult;
  eqb := Qc_eq_bool
}.

(** ** Exceptions *)

Inductive exn : Type :=
| AssertionError
| KeyError (key : string).

Inductive result (T : Type) : Type :=
| Ok (x : T)
| Raise (e : exn).
Arguments Raise {T} e.

Definition bind_result {T U} (m : result T) (k : T -> result U) : result U :=
  match m with
  | Ok x => k x
  | Raise e => Raise e
  end.

Notation "x <-? m ;; k" := (bind_result m (fun x => k))
  (at level 61, m at next level, right associativity).

(** ** Configuration (the module's "Fixed Variables") *)

Record Config (A : Type) : Type := {
  YEARS_REMAINING : nat;
  STARTING_EQUITY : A;
  STARTING_CASH : A;
  AFTER_TAX_SALARY : A;
  FIXED_EXPENSES : A;
  SALARY_GROWTH_RATE : A;
  PORTFOLIO_DISTRIBUTION : list (string * A);   (* dict, in insertion order *)
  SNP_DIV_YIELD : A;
  INTEREST_RATE : A;
  TAIL_RISK_COST : A;
  TAIL_RISK_PROBABILITY : A;
  RUNS : nat
}.

(** The constants as the source file has them. *)
Definition source_config : Config float := {|
  YEARS_REMAINING := 110 - 25;
  STARTING_EQUITY := 6e4%float;
  STARTING_CASH := 6e4%float;
  AFTER_TAX_SALARY := 1e5%float;
  FIXED_EXPENSES := 5e4%float;
  SALARY_GROWTH_RATE := 0.02%float;
  PORTFOLIO_DISTRIBUTION := [("cash"%string, 0.1%float); ("equity"%string, 0.9%float)];
  SNP_DIV_YIELD := 0.014%float;
  INTEREST_RATE := 0.03%float;
  TAIL_RISK_COST := 3e4%float;
  TAIL_RISK_PROBABILITY := (1 / 30)%float;
  RUNS := 1
|}.

(** The same constants read as exact decimal fractions. *)
Definition exact_config : Config Qc := {|
  YEARS_REMAINING := 110 - 25;
  STARTING_EQUITY := Q2Qc 60000;
  STARTING_CASH := Q2Qc 60000;
  AFTER_TAX_SALARY := Q2Qc 100000;
  FIXED_EXPENSES := Q2Qc 50000;
  SALARY_GROWTH_RATE := Q2Qc 0.02;
  PORTFOLIO_DISTRIBUTION := [("cash"%string, Q2Qc 0.1); ("equity"%string, Q2Qc 0.9)];
  SNP_DIV_YIELD := Q2Qc 0.014;
  INTEREST_RATE := Q2Qc 0.03;
  TAIL_RISK_COST := Q2Qc 30000;
  TAIL_RISK_PROBABILITY := Q2Qc (1 / 30);
  RUNS := 1
|}.

Section Kernel.

Context {A : Type} `{Scalar A}.
Local Open Scope scalar_scope.

(** [ANNUAL_DRAWDOWN = FIXED_EXPENSES + 0] *)
Definition ANNUAL_DRAWDOWN (cfg : Config A) : A :=
  FIXED_EXPENSES cfg + of_int 0.

(** [d[key]] on a dict. *)
Fixpoint dict_get (d : list (string * A)) (key : string) : result A :=
  match d with
  | [] => Raise (KeyError key)
  | (k, v) :: d' => if String.eqb k key then Ok v else dict_get d' key
  end.

Definition dict_values (d : list (string * A)) : list A := map snd d.

(** Python's built-in [sum]: a left fold of [+] from the int 0. *)
Definition py_sum (xs : list A) : A := fold_left add xs (of_int 0).

(** The condition of the module-level [assert]. *)
Definition distribution_sums_to_one (cfg : Config A) : bool :=
  py_sum (dict_values (PORTFOLIO_DISTRIBUTION cfg)) == of_int 1.

(** *** numpy helpers *)

(** [np.cumprod]: out[0] = a[0], out[i] = out[i-1] * a[i]. *)
Fixpoint cumprod_from (acc : A) (a : list A) : list A :=
  match a with
  | [] => []
  | x :: a' => let acc' := acc * x in acc' :: cumprod_from acc' a'
  end.

Definition cumprod (a : list A) : list A :=
  match a with
  | [] => []
  | x :: a' => x :: cumprod_from x a'
  end.

(** scalar * array and scalar + array *)
Definition scale (c : A) (a : list A) : list A := map (fun x => c * x) a.
Definition shift (c : A) (a : list A) : list A := map (fun x => c + x) a.

(** array + array, on arrays of one shape *)
Definition np_add (a b : list A) : list A :=
  map (fun xy => fst xy + snd xy) (combine a b).

(** *** The derived sequences of one run (lines 89-91 of the source) *)

Definition drawdown_of (cfg : Config A) (inflation : list A) : list A :=
  scale (ANNUAL_DRAWDOWN cfg) (cumprod (shift (of_int 1) inflation)).

Definition salary_growth_of (cfg : Config A) : list A :=
  repeat (of_int 1 + SALARY_GROWTH_RATE cfg) (YEARS_REMAINING cfg).

Definition salary_of (cfg : Config A) : list A :=
  scale (AFTER_TAX_SALARY cfg) (cumprod (salary_growth_of cfg)).

(** *** portfolio_annuity *)

(** The dict the function returns. *)
Record Portfolio : Type := {
  cash_pos : list A;
  equity_pos : list A;
  dividend_pos : list A;
  interest_pos : list A;
  snp_return_pos : list A;
  tail_risk_pos : list A
}.

(** The local variables the loop updates. *)
Record Locals : Type := {
  cash : A;
  equity : A;
  acc : Portfolio
}.

(** [zip] of four sequences stops at the shortest. *)
Fixpoint zip4 (s m d t : list A) : list (A * A * A * A) :=
  match s, m, d, t with
  | x :: s', y :: m', z :: d', w :: t' => (x, y, z, w) :: zip4 s' m' d' t'
  | _, _, _, _ => []
  end.

(** One pass through the body of the [for] loop (lines 48-59). *)
Definition loop_body (cfg : Config A) (st : Locals) (row : A * A * A * A)
  : result Locals :=
  let '(sal, snp_perc, dd, tail) := row in
  let dividend := equity st * SNP_DIV_YIELD cfg in
  let interest := cash st * INTEREST_RATE cfg in
  let snp_return := equity st * snp_perc in
  let annual_distribution := sal + dividend + interest - tail - dd in
  cash_fraction <-? dict_get (PORTFOLIO_DISTRIBUTION cfg) "cash" ;;
  let cash' := cash st + annual_distribution * cash_fraction in
  equity_fraction <-? dict_get (PORTFOLIO_DISTRIBUTION cfg) "equity" ;;
  let equity' := equity st + (snp_return + annual_distribution * equity_fraction) in
  Ok {| cash := cash';
        equity := equity';
        acc := {| cash_pos := cash_pos (acc st) ++ [cash'];
                  equity_pos := equity_pos (acc st) ++ [equity'];
                  dividend_pos := dividend_pos (acc st) ++ [dividend];
                  interest_pos := interest_pos (acc st) ++ [interest];
                  snp_return_pos := snp_return_pos (acc st) ++ [snp_return];
                  tail_risk_pos := tail_risk_pos (acc st) ++ [tail] |} |}.

Fixpoint for_each (cfg : Config A) (rows : list (A * A * A * A)) (st : Locals)
  : result Locals :=
  match rows with
  | [] => Ok st
  | row :: rows' => st' <-? loop_body cfg st row ;; for_each cfg rows' st'
  end.

Definition empty_portfolio : Portfolio :=
  {| cash_pos := []; equity_pos := []; dividend_pos := [];
     interest_pos := []; snp_return_pos := []; tail_risk_pos := [] |}.

Definition portfolio_annuity (cfg : Config A)
  (salary snp_return_percent drawdown tail_risk : list A) : result Portfolio :=
  let st0 := {| cash := STARTING_CASH cfg;
                equity := STARTING_EQUITY cfg;
                acc := empty_portfolio |} in
  st <-? for_each cfg (zip4 salary snp_return_percent drawdown tail_risk) st0 ;;
  Ok (acc st).

End Kernel.

Arguments Portfolio A : clear implicits.
Arguments Locals A : clear implicits.

(** ** The pseudorandom source and the logger

    numpy's global generator is a parameter of the development: a state
    type, what [np.random.seed] installs, and one draw of [np.random.normal]
    and of [np.random.binomial], each returning the sample and the advanced
    state.  The only fact used about the library is the range of a binomial
    sample. *)

Class Generator : Type := {
  rng : Type;
  seed : Z -> rng;
  normal : float -> float -> rng -> float * rng;      (* loc, scale *)
  binomial : Z -> float -> rng -> Z * rng;            (* n, p *)
  binomial_range : forall n p g,
    (0 <= n)%Z -> (0 <= fst (binomial n p g) <= n)%Z
}.

Inductive Level : Type := INFO | ERROR.

Section Driver.

Context {G : Generator}.
Local Open Scope scalar_scope.

(** What the program reads and writes besides its arguments: numpy's global
    generator state and the records the logger has emitted. *)
Record World : Type := {
  rng_state : rng;
  log : list (Level * string)
}.

Definition M (T : Type) : Type := World -> result T * World.

Definition ret {T} (x : T) : M T := fun w => (Ok x, w).

Definition raise {T} (e : exn) : M T := fun w => (Raise e, w).

Definition bind {T U} (m : M T) (k : T -> M U) : M U :=
  fun w => match m w with
           | (Ok x, w') => k x w'
           | (Raise e, w') => (Raise e, w')
           end.

Notation "x <- m ;; k" := (bind m (fun x => k))
  (at level 61, m at next level, right associativity).
Notation "m ;; k" := (bind m (fun _ => k))
  (at level 61, right associativity).

Definition lift {T} (r : result T) : M T := fun w => (r, w).

Definition logger (lvl : Level) (msg : string) : M unit :=
  fun w => (Ok tt, {| rng_state := rng_state w; log := log w ++ [(lvl, msg)] |}).

Definition np_random_seed (s : Z) : M unit :=
  fun w => (Ok tt, {| rng_state := seed s; log := log w |}).

(** [size] successive draws from the stream. *)
Fixpoint draws {T} (draw : rng -> T * rng) (size : nat) (g : rng) : list T * rng :=
  match size with
  | O => ([], g)
  | S size' => let (x, g') := draw g in
               let (xs, g'') := draws draw size' g' in
               (x :: xs, g'')
  end.

Definition sample {T} (draw : rng -> T * rng) (size : nat) : M (list T) :=
  fun w => let (xs, g) := draws draw size (rng_state w) in
           (Ok xs, {| rng_state := g; log := log w |}).

Definition np_random_normal (loc scale : float) (size : nat) : M (list float) :=
  sample (normal loc scale) size.

Definition np_random_binomial (n : Z) (p : float) (size : nat) : M (list Z) :=
  sample (binomial n p) size.

(** ** monte_carlo *)

(** One element of the returned array. *)
Record Run : Type := {
  simulation : nat;
  year : list Z;
  nest_egg : list float;
  cash_position : list float;
  equity_position : list float;
  salary : list float;
  salary_growth : list float;
  div_yield : list float;
  div_return : list float;
  snp_return : list float;
  snp_return_percent : list float;
  interest_return : list float;
  inflation : list float;
  living_expenses : list float;
  tail_risk : list float
}.

Definition str (n : nat) : string := NilEmpty.string_of_uint (Nat.to_uint n).

(** [np.array(list(range(n))) + 1] *)
Definition years (n : nat) : list Z :=
  map (fun k => (k + 1)%Z) (map Z.of_nat (seq 0 n)).

(** The body of [for i in range(runs)] (lines 87-114). *)
Definition one_run (cfg : Config float) (simiulations : list Run) (i : nat)
  : M (list Run) :=
  let n := YEARS_REMAINING cfg in
  snp_return_percent <- np_random_normal 0.12%float 0.2%float n ;;
  inflation <- np_random_normal 0.03%float 0.035%float n ;;
  let drawdown := drawdown_of cfg inflation in
  let salary_growth := salary_growth_of cfg in
  let salary := salary_of cfg in
  indicator <- np_random_binomial 1 (TAIL_RISK_PROBABILITY cfg) n ;;
  let tail_risk := scale (TAIL_RISK_COST cfg) (map of_int indicator) in
  portfolio <- lift (portfolio_annuity cfg salary snp_return_percent drawdown tail_risk) ;;
  let year := years n in
  ret (simiulations ++
       [ {| simulation := i;
            year := year;
            nest_egg := np_add (cash_pos portfolio) (equity_pos portfolio);
            cash_position := cash_pos portfolio;
            equity_position := equity_pos portfolio;
            salary := salary;
            salary_growth := salary_growth;
            div_yield := repeat (SNP_DIV_YIELD cfg) n;
            div_return := dividend_pos portfolio;
            snp_return := snp_return_pos portfolio;
            snp_return_percent := snp_return_percent;
            interest_return := interest_pos portfolio;
            inflation := inflation;
            living_expenses := drawdown;
            tail_risk := tail_risk_pos portfolio |} ]).

Fixpoint for_range (cfg : Config float) (ixs : list nat) (simiulations : list Run)
  : M (list Run) :=
  match ixs with
  | [] => ret simiulations
  | i :: ixs' => sims <- one_run cfg simiulations i ;; for_range cfg ixs' sims
  end.

Definition monte_carlo (cfg : Config float) (runs : nat) : M (list Run) :=
  logger INFO ("Running " ++ str runs ++ " simulations.") ;;
  np_random_seed 42 ;;
  for_range cfg (seq 0 runs) [].

(** ** The module's top level *)

(** Line 33: [assert sum(...) == 1, logger.error(...)]; the message
    expression is evaluated, and so the record logged, only on failure. *)
Definition module_body (cfg : Config float) : M unit :=
  if distribution_sums_to_one cfg then ret tt
  else logger ERROR "Porftolio distribution does not sum to 1" ;;
       raise AssertionError.

(** Running the file as a script: the module body, then [monte_carlo()]
    with its default argument [runs=RUNS]. *)
Definition main (cfg : Config float) : M (list Run) :=
  module_body cfg ;; monte_carlo cfg (RUNS cfg).

End Driver.

(** ** sim_analysis

    [pd.DataFrame({i["simulation"]: i[column] for i in sims})].  A run is a
    dict with fifteen keys; the dict comprehension is evaluated here, and
    pandas' constructor is a parameter applied to the dict it is handed. *)

(** What a key of a run maps to. *)
Inductive Value : Type :=
| VInt (n : nat)
| VInts (a : list Z)
| VFloats (a : list float).

(** [i[column]] on a run. *)
Definition run_item (r : Run) (column : string) : result Value :=
  if String.eqb column "simulation" then Ok (VInt (simulation r))
  else if String.eqb column "year" then Ok (VInts (year r))
  else if String.eqb column "nest_egg" then Ok (VFloats (nest_egg r))
  else if String.eqb column "cash_position" then Ok (VFloats (cash_position r))
  else if String.eqb column "equity_position" then Ok (VFloats (equity_position r))
  else if String.eqb column "salary" then Ok (VFloats (salary r))
  else if String.eqb column "salary_growth" then Ok (VFloats (salary_growth r))
  else if String.eqb column "div_yield" then Ok (VFloats (div_yield r))
  else if String.eqb column "div_return" then Ok (VFloats (div_return r))
  else if String.eqb column "snp_return" then Ok (VFloats (snp_return r))
  else if String.eqb column "snp_return_percent" then Ok (VFloats (snp_return_percent r))
  else if String.eqb column "interest_return" then Ok (VFloats (interest_return r))
  else if String.eqb column "inflation" then Ok (VFloats (inflation r))
  else if String.eqb column "living_expenses" then Ok (VFloats (living_expenses r))
  else if String.eqb column "tail_risk" then Ok (VFloats (tail_risk r))
  else Raise (KeyError column).

(** [d[k] = v] on a dict with int keys: an existing key keeps its place and
    takes the new value, a new key goes last. *)
Fixpoint py_dict_set {V : Type} (d : list (nat * V)) (k : nat) (v : V)
  : list (nat * V) :=
  match d with
  | [] => [(k, v)]
  | (k', v') :: d' =>
      if Nat.eqb k' k then (k', v) :: d' else (k', v') :: py_dict_set d' k v
  end.

(** The dict comprehension, run by run. *)
Fixpoint dict_comprehension (sims : list Run) (column : string)
         (d : list (nat * Value)) : result (list (nat * Value)) :=
  match sims with
  | [] => Ok d
  | i :: sims' =>
      v <-? run_item i column ;;
      dict_comprehension sims' column (py_dict_set d (simulation i) v)
  end.

Section Presentation.

Variable Frame : Type.
Variable pd_DataFrame : list (nat * Value) -> result Frame.

Definition sim_analysis (sims : list Run) (column : string) : result Frame :=
  d <-? dict_comprehension sims column [] ;; pd_DataFrame d.

End Presentation.

(** ** The plotting grid of the script (lines 126-134)

    [kicker = 1 if len(metrics) % columns > 0 else 0], the number of rows
    [len(metrics)//columns + kicker] asked of [plt.subplots], and the cell
    [axs[i//2, i%2]] metric [i] is drawn in. *)

Definition kicker (n_metrics columns : nat) : nat :=
  if Nat.ltb 0 (n_metrics mod columns) then 1 else 0.

Definition subplot_rows (n_metrics columns : nat) : nat :=
  n_metrics / columns + kicker n_metrics columns.

Definition axes_index (i : nat) : nat * nat := (i / 2, i mod 2).

(** * Auxiliary definitions

    The vocabulary the properties are stated and proved in. *)

Section KernelSpec.

Context {A : Type} `{Scalar A}.
Local Open Scope scalar_scope.

(** What one pass of the loop appends, as a record. *)
Record YearOut : Type := {
  y_cash : A; y_equity : A; y_dividend : A;
  y_interest : A; y_snp_return : A; y_tail : A
}.

Definition net_distribution (sal dividend interest tail dd : A) : A :=
  sal + dividend + interest - tail - dd.

(** The year's outputs from the balances [C], [E] the year starts with and
    the allocation fractions [cf], [ef]. *)
Definition year_out (cfg : Config A) (cf ef C E : A) (row : A * A * A * A) : YearOut :=
  let '(sal, snp_perc, dd, tail) := row in
  let nd := net_distribution sal (E * SNP_DIV_YIELD cfg) (C * INTEREST_RATE cfg) tail dd in
  {| y_cash := C + nd * cf;
     y_equity := E + (E * snp_perc + nd * ef);
     y_dividend := E * SNP_DIV_YIELD cfg;
     y_interest := C * INTEREST_RATE cfg;
     y_snp_return := E * snp_perc;
     y_tail := tail |}.

Fixpoint trace (cfg : Config A) (cf ef C E : A) (rows : list (A * A * A * A))
  : list YearOut :=
  match rows with
  | [] => []
  | row :: rows' =>
      let y := year_out cfg cf ef C E row in
      y :: trace cfg cf ef (y_cash y) (y_equity y) rows'
  end.

Definition columns (tr : list YearOut) : Portfolio A :=
  {| cash_pos := map y_cash tr;
     equity_pos := map y_equity tr;
     dividend_pos := map y_dividend tr;
     interest_pos := map y_interest tr;
     snp_return_pos := map y_snp_return tr;
     tail_risk_pos := map y_tail tr |}.

Definition extend (p : Portfolio A) (tr : list YearOut) : Portfolio A :=
  {| cash_pos := cash_pos p ++ map y_cash tr;
     equity_pos := equity_pos p ++ map y_equity tr;
     dividend_pos := dividend_pos p ++ map y_dividend tr;
     interest_pos := interest_pos p ++ map y_interest tr;
     snp_return_pos := snp_return_pos p ++ map y_snp_return tr;
     tail_risk_pos := tail_risk_pos p ++ map y_tail tr |}.

(** The product of [f 0 ... f t], multiplied left to right. *)
Fixpoint prod_upto (f : nat -> A) (t : nat) : A :=
  match t with
  | O => f O
  | S t' => prod_upto f t' * f t
  end.

(** The net-worth reading of the recurrence: in every year the nest egg
    (cash + equity) is the previous nest egg, or the sum of the starting
    balances in the first year, plus the year's capital return plus its net
    distribution. *)
Definition nest_egg_identity (cfg : Config A) (s m d t : list A) : Prop :=
  forall p,
    portfolio_annuity cfg s m d t = Ok p ->
    forall i N0 cr dividend interest sal snp_perc dd tail,
      nth_error ((STARTING_CASH cfg + STARTING_EQUITY cfg)
                   :: np_add (cash_pos p) (equity_pos p)) i = Some N0 ->
      nth_error (snp_return_pos p) i = Some cr ->
      nth_error (dividend_pos p) i = Some dividend ->
      nth_error (interest_pos p) i = Some interest ->
      nth_error (zip4 s m d t) i = Some (sal, snp_perc, dd, tail) ->
      nth_error (np_add (cash_pos p) (equity_pos p)) i =
      Some (N0 + cr + net_distribution sal dividend interest tail dd).

(** An engine that guards its input shape: any sequence whose length is not
    the horizon makes the call raise. *)
Definition rejects_wrong_shape (cfg : Config A) : Prop :=
  forall s m d t : list A,
    length s <> YEARS_REMAINING cfg \/ length m <> YEARS_REMAINING cfg \/
    length d <> YEARS_REMAINING cfg \/ length t <> YEARS_REMAINING cfg ->
    exists e, portfolio_annuity cfg s m d t = Raise e.

End KernelSpec.

Arguments YearOut A : clear implicits.

(** The program's constants with another allocation dict. *)
Definition with_distribution (cfg : Config float) (d : list (string * float))
  : Config float :=
  {| YEARS_REMAINING := YEARS_REMAINING cfg;
     STARTING_EQUITY := STARTING_EQUITY cfg;
     STARTING_CASH := STARTING_CASH cfg;
     AFTER_TAX_SALARY := AFTER_TAX_SALARY cfg;
     FIXED_EXPENSES := FIXED_EXPENSES cfg;
     SALARY_GROWTH_RATE := SALARY_GROWTH_RATE cfg;
     PORTFOLIO_DISTRIBUTION := d;
     SNP_DIV_YIELD := SNP_DIV_YIELD cfg;
     INTEREST_RATE := INTEREST_RATE cfg;
     TAIL_RISK_COST := TAIL_RISK_COST cfg;
     TAIL_RISK_PROBABILITY := TAIL_RISK_PROBABILITY cfg;
     RUNS := RUNS cfg |}.

(** The scenario of the specification's fold test, over the whole horizon:
    every year the same value. *)
Definition flat_scenario (x : float) : list float :=
  repeat x (YEARS_REMAINING source_config).

(** A small linear congruential stream, used to run the driver on concrete
    inputs.  Nothing below depends on its numbers. *)

Definition lcg_next (g : Z) : Z := ((g * 1103515245 + 12345) mod 2147483648)%Z.

Definition lcg_normal (loc scale : float) (g : Z) : float * Z :=
  ((loc + scale * (float_of_Z (g mod 7 - 3) / 2))%float, lcg_next g).

Definition lcg_binomial (n : Z) (p : float) (g : Z) : Z * Z :=
  ((if (n <=? 0)%Z then 0 else if (g mod 30 =? 0)%Z then 1 else 0)%Z, lcg_next g).

Definition lcg : Generator.
Proof.
  refine {| rng := Z;
            seed := fun s => s;
            normal := lcg_normal;
            binomial := lcg_binomial;
            binomial_range := _ |}.
  intros n p g Hn. unfold lcg_binomial. cbn [fst].
  destruct (Z.leb_spec n 0); [lia|].
  destruct (g mod 30 =? 0)%Z; lia.
Defined.

Section DriverSpec.

Context {G : Generator}.
Local Open Scope scalar_scope.

(** A computation is [log_blind] when its result and the generator state it
    leaves depend on the world it starts in through the generator state
    only. *)
Definition log_blind {T} (m : M T) : Prop :=
  forall w1 w2 : World,
    rng_state w1 = rng_state w2 ->
    fst (m w1) = fst (m w2) /\ rng_state (snd (m w1)) = rng_state (snd (m w2)).

(** Run [i] as a function of the generator state it starts from, for
    allocation fractions [cf], [ef]; and the batch of the runs [ixs]. *)
Definition scenario_run (cfg : Config float) (cf ef : float) (i : nat) (g : rng)
  : Run * rng :=
  let n := YEARS_REMAINING cfg in
  let d1 := draws (normal 0.12%float 0.2%float) n g in
  let d2 := draws (normal 0.03%float 0.035%float) n (snd d1) in
  let d3 := draws (binomial 1 (TAIL_RISK_PROBABILITY cfg)) n (snd d2) in
  let tail := scale (TAIL_RISK_COST cfg) (map of_int (fst d3)) in
  let p := columns (trace cfg cf ef (STARTING_CASH cfg) (STARTING_EQUITY cfg)
                      (zip4 (salary_of cfg) (fst d1) (drawdown_of cfg (fst d2)) tail)) in
  ({| simulation := i;
      year := years n;
      nest_egg := np_add (cash_pos p) (equity_pos p);
      cash_position := cash_pos p;
      equity_position := equity_pos p;
      salary := salary_of cfg;
      salary_growth := salary_growth_of cfg;
      div_yield := repeat (SNP_DIV_YIELD cfg) n;
      div_return := dividend_pos p;
      snp_return := snp_return_pos p;
      snp_return_percent := fst d1;
      interest_return := interest_pos p;
      inflation := fst d2;
      living_expenses := drawdown_of cfg (fst d2);
      tail_risk := tail_risk_pos p |}, snd d3).

Fixpoint batch_from (cfg : Config float) (cf ef : float) (ixs : list nat) (g : rng)
  : list Run * rng :=
  match ixs with
  | [] => ([], g)
  | i :: ixs' =>
      let r := scenario_run cfg cf ef i g in
      let b := batch_from cfg cf ef ixs' (snd r) in
      (fst r :: fst b, snd b)
  end.

(** Every sequence field of a run has [n] entries. *)
Definition run_lengths (n : nat) (r : Run) : Prop :=
  length (year r) = n /\
  length (nest_egg r) = n /\
  length (cash_position r) = n /\
  length (equity_position r) = n /\
  length (salary r) = n /\
  length (salary_growth r) = n /\
  length (div_yield r) = n /\
  length (div_return r) = n /\
  length (snp_return r) = n /\
  length (snp_return_percent r) = n /\
  length (interest_return r) = n /\
  length (inflation r) = n /\
  length (living_expenses r) = n /\
  length (tail_risk r) = n.

End DriverSpec.

(** A world for the [lcg] stream: an arbitrary prior state, nothing logged. *)
Definition lcg_world : @World lcg :=
  @Build_World lcg 2024%Z [].

(** ** Vocabulary of the further properties *)

Section KernelSpec2.

Context {A : Type} `{Scalar A}.

(** The constants with other starting balances. *)
Definition with_balances (cfg : Config A) (C E : A) : Config A :=
  {| YEARS_REMAINING := YEARS_REMAINING cfg;
     STARTING_EQUITY := E;
     STARTING_CASH := C;
     AFTER_TAX_SALARY := AFTER_TAX_SALARY cfg;
     FIXED_EXPENSES := FIXED_EXPENSES cfg;
     SALARY_GROWTH_RATE := SALARY_GROWTH_RATE cfg;
     PORTFOLIO_DISTRIBUTION := PORTFOLIO_DISTRIBUTION cfg;
     SNP_DIV_YIELD := SNP_DIV_YIELD cfg;
     INTEREST_RATE := INTEREST_RATE cfg;
     TAIL_RISK_COST := TAIL_RISK_COST cfg;
     TAIL_RISK_PROBABILITY := TAIL_RISK_PROBABILITY cfg;
     RUNS := RUNS cfg |}.

(** The first [k] years of a result, and one result followed by another. *)
Definition take_years (k : nat) (p : Portfolio A) : Portfolio A :=
  {| cash_pos := firstn k (cash_pos p);
     equity_pos := firstn k (equity_pos p);
     dividend_pos := firstn k (dividend_pos p);
     interest_pos := firstn k (interest_pos p);
     snp_return_pos := firstn k (snp_return_pos p);
     tail_risk_pos := firstn k (tail_risk_pos p) |}.

Definition then_years (p q : Portfolio A) : Portfolio A :=
  {| cash_pos := cash_pos p ++ cash_pos q;
     equity_pos := equity_pos p ++ equity_pos q;
     dividend_pos := dividend_pos p ++ dividend_pos q;
     interest_pos := interest_pos p ++ interest_pos q;
     snp_return_pos := snp_return_pos p ++ snp_return_pos q;
     tail_risk_pos := tail_risk_pos p ++ tail_risk_pos q |}.

(** Every sequence of a result multiplied by [k]. *)
Definition scale_portfolio (k : A) (p : Portfolio A) : Portfolio A :=
  {| cash_pos := scale k (cash_pos p);
     equity_pos := scale k (equity_pos p);
     dividend_pos := scale k (dividend_pos p);
     interest_pos := scale k (interest_pos p);
     snp_return_pos := scale k (snp_return_pos p);
     tail_risk_pos := scale k (tail_risk_pos p) |}.

End KernelSpec2.

(** The result [portfolio_annuity] would rebuild from what a run records. *)
Definition recorded_portfolio (r : Run) : Portfolio float :=
  {| cash_pos := cash_position r;
     equity_pos := equity_position r;
     dividend_pos := div_return r;
     interest_pos := interest_return r;
     snp_return_pos := snp_return r;
     tail_risk_pos := tail_risk r |}.

(** One year's inputs and outputs with the money amounts multiplied by [k],
    in exact arithmetic; the market return is a ratio and stays. *)
Definition scale_row (k : Qc) (row : Qc * Qc * Qc * Qc) : Qc * Qc * Qc * Qc :=
  let '(sal, snp_perc, dd, tail) := row in
  (k * sal, snp_perc, k * dd, k * tail)%Qc.

Definition scale_year (k : Qc) (y : YearOut Qc) : YearOut Qc :=
  {| y_cash := (k * y_cash y)%Qc; y_equity := (k * y_equity y)%Qc;
     y_dividend := (k * y_dividend y)%Qc; y_interest := (k * y_interest y)%Qc;
     y_snp_return := (k * y_snp_return y)%Qc; y_tail := (k * y_tail y)%Qc |}.

(** The run number [i] of a batch over a horizon of zero years. *)
Definition empty_run (i : nat) : Run :=
  {| simulation := i; year := []; nest_egg := []; cash_position := [];
     equity_position := []; salary := []; salary_growth := []; div_yield := [];
     div_return := []; snp_return := []; snp_return_percent := [];
     interest_return := []; inflation := []; living_expenses := [];
     tail_risk := [] |}.

(** The keys of a run whose value is a sequence. *)
Definition sequence_keys : list string :=
  ["year"; "nest_egg"; "cash_position"; "equity_position"; "salary";
   "salary_growth"; "div_yield"; "div_return"; "snp_return";
   "snp_return_percent"; "interest_return"; "inflation"; "living_expenses";
   "tail_risk"]%string.

(** The number of entries of a value; an int has none. *)
Definition value_length (v : Value) : option nat :=
  match v with
  | VInt _ => None
  | VInts a => Some (length a)
  | VFloats a => Some (length a)
  end.

(** A computation that logs nothing. *)
Definition log_silent {G : Generator} {T : Type} (m : M T) : Prop :=
  forall w : World, log (snd (m w)) = log w.

(** * Properties *)

(** ** Arrays *)

Section ArrayFacts.

Context {A : Type} `{Scalar A}.
Local Open Scope scalar_scope.

Lemma cumprod_from_length (a : list A) :
  forall x, length (cumprod_from x a) = length a.
Proof.
  induction a as [|y a IH]; intros x; cbn; [reflexivity|].
  now rewrite IH.
Qed.

Lemma cumprod_length (a : list A) : length (cumprod a) = length a.
Proof.
  destruct a as [|x a]; cbn; [reflexivity|].
  now rewrite cumprod_from_length.
Qed.

Lemma scale_length (c : A) (a : list A) : length (scale c a) = length a.
Proof. apply length_map. Qed.

Lemma shift_length (c : A) (a : list A) : length (shift c a) = length a.
Proof. apply length_map. Qed.

Lemma np_add_length (a b : list A) :
  length (np_add a b) = Nat.min (length a) (length b).
Proof. unfold np_add. now rewrite length_map, length_combine. Qed.

Lemma np_add_nth (a b : list A) :
  forall i x y,
    nth_error a i = Some x -> nth_error b i = Some y ->
    nth_error (np_add a b) i = Some (x + y).
Proof.
  revert b. induction a as [|u a IH]; intros [|v b] [|i] x y Hx Hy;
    try discriminate; cbn in *.
  - congruence.
  - now apply IH.
Qed.

Lemma np_add_nth_inv (a b : list A) :
  forall i n,
    nth_error (np_add a b) i = Some n ->
    exists x y, nth_error a i = Some x /\ nth_error b i = Some y /\ n = x + y.
Proof.
  revert b. induction a as [|u a IH]; intros [|v b] [|i] n Hn;
    try discriminate; cbn in *.
  - exists u, v. repeat split. congruence.
  - now apply IH.
Qed.

Lemma zip4_length (s m d t : list A) :
  length (zip4 s m d t) =
  Nat.min (Nat.min (length s) (length m)) (Nat.min (length d) (length t)).
Proof.
  revert m d t.
  induction s as [|x s IH]; intros [|y m] [|z d] [|w t];
    cbn [zip4 length]; try rewrite IH; lia.
Qed.

(** Entry [t] of a running product started at [x]. *)
Lemma cumprod_from_nth (a : list A) :
  forall x t y,
    nth_error a t = Some y ->
    nth_error (cumprod_from x a) t =
    Some (prod_upto (fun k => match k with
                              | O => x
                              | S k' => nth k' a y
                              end) (S t)).
Proof.
  induction a as [|z a IH]; intros x t y Ht.
  - destruct t; discriminate Ht.
  - destruct t as [|t]; cbn [cumprod_from nth_error].
    + reflexivity.
    + cbn [nth_error] in Ht. rewrite (IH (x * z) t y Ht). f_equal.
      clear IH Ht.
      assert (Hgen : forall n,
                 prod_upto (fun k => match k with
                                     | O => x * z
                                     | S k' => nth k' a y
                                     end) n =
                 prod_upto (fun k => match k with
                                     | O => x
                                     | S k' => nth k' (z :: a) y
                                     end) (S n)).
      { induction n as [|n IHn]; [reflexivity|].
        cbn [prod_upto] in *. now rewrite IHn. }
      apply Hgen.
Qed.

(** [np.cumprod]: entry [t] is the product of entries [0..t]. *)
Lemma cumprod_nth (a : list A) (t : nat) (y : A) :
  nth_error a t = Some y ->
  nth_error (cumprod a) t = Some (prod_upto (fun k => nth k a y) t).
Proof.
  destruct a as [|x a]; intros Ht.
  - destruct t; discriminate Ht.
  - destruct t as [|t]; cbn [cumprod nth_error]; [reflexivity|].
    cbn [nth_error] in Ht. now rewrite (cumprod_from_nth a x t Ht).
Qed.

Lemma prod_upto_ext (f g : nat -> A) (t : nat) :
  (forall k, k <= t -> f k = g k) -> prod_upto f t = prod_upto g t.
Proof.
  induction t as [|t IH]; intros E; cbn [prod_upto].
  - now apply E.
  - rewrite IH by (intros k Hk; apply E; lia). now rewrite (E (S t)).
Qed.

End ArrayFacts.

(** ** The recurrence as a trace

    With both dict keys present the loop cannot raise, and what it appends
    in year [i] is the function [year_out] of the balances it started the
    year with: [portfolio_annuity] returns the columns of [trace]. *)

Section KernelFacts.

Context {A : Type} `{Scalar A}.
Local Open Scope scalar_scope.

Variable cfg : Config A.
Variables cf ef : A.
Hypothesis cash_key : dict_get (PORTFOLIO_DISTRIBUTION cfg) "cash" = Ok cf.
Hypothesis equity_key : dict_get (PORTFOLIO_DISTRIBUTION cfg) "equity" = Ok ef.

Lemma loop_body_ok (st : Locals A) (row : A * A * A * A) :
  exists st',
    loop_body cfg st row = Ok st' /\
    cash st' = y_cash (year_out cfg cf ef (cash st) (equity st) row) /\
    equity st' = y_equity (year_out cfg cf ef (cash st) (equity st) row) /\
    acc st' = extend (acc st) [year_out cfg cf ef (cash st) (equity st) row].
Proof.
  destruct row as [[[sal snp_perc] dd] tail].
  unfold loop_body. rewrite cash_key, equity_key. cbn.
  eexists. split; [reflexivity|]. cbn. repeat split.
Qed.

Lemma extend_cons (p : Portfolio A) (y : YearOut A) (tr : list (YearOut A)) :
  extend (extend p [y]) tr = extend p (y :: tr).
Proof.
  unfold extend. cbn. now rewrite <- !app_assoc.
Qed.

Lemma for_each_trace (rows : list (A * A * A * A)) :
  forall st, exists st',
    for_each cfg rows st = Ok st' /\
    acc st' = extend (acc st) (trace cfg cf ef (cash st) (equity st) rows).
Proof.
  induction rows as [|row rows IH]; intros st; cbn [for_each trace].
  - exists st. split; [reflexivity|].
    destruct (acc st). unfold extend. cbn. now rewrite !app_nil_r.
  - destruct (loop_body_ok st row) as (st1 & E1 & Hc & He & Ha).
    rewrite E1. cbn [bind_result].
    destruct (IH st1) as (st' & E' & Ha').
    exists st'. split; [exact E'|].
    rewrite Ha', Ha, Hc, He. apply extend_cons.
Qed.

Lemma portfolio_annuity_trace (s m d t : list A) :
  portfolio_annuity cfg s m d t =
  Ok (columns (trace cfg cf ef (STARTING_CASH cfg) (STARTING_EQUITY cfg) (zip4 s m d t))).
Proof.
  unfold portfolio_annuity.
  destruct (for_each_trace (zip4 s m d t)
              {| cash := STARTING_CASH cfg; equity := STARTING_EQUITY cfg;
                 acc := empty_portfolio |}) as (st' & E' & Ha').
  rewrite E'. cbn [bind_result]. now rewrite Ha'.
Qed.

Lemma trace_length (rows : list (A * A * A * A)) :
  forall C E, length (trace cfg cf ef C E rows) = length rows.
Proof.
  induction rows as [|row rows IH]; intros C E; cbn; [reflexivity|].
  now rewrite IH.
Qed.

(** Year [i] is computed from the balances year [i-1] ended with (the
    starting balances for the first year). *)
Lemma trace_nth (rows : list (A * A * A * A)) :
  forall C E i Cp Ep row,
    nth_error (C :: map y_cash (trace cfg cf ef C E rows)) i = Some Cp ->
    nth_error (E :: map y_equity (trace cfg cf ef C E rows)) i = Some Ep ->
    nth_error rows i = Some row ->
    nth_error (trace cfg cf ef C E rows) i = Some (year_out cfg cf ef Cp Ep row).
Proof.
  induction rows as [|r rows IH]; intros C E i Cp Ep row HC HE Hrow.
  - destruct i; discriminate Hrow.
  - destruct i as [|i]; cbn in *.
    + congruence.
    + now apply IH.
Qed.

(** The fourth input comes back unchanged, cut to the zipped length. *)
Lemma trace_tail (rows : list (A * A * A * A)) :
  forall C E, map y_tail (trace cfg cf ef C E rows) = map snd rows.
Proof.
  induction rows as [|[[[sal snp_perc] dd] tail] rows IH]; intros C E; cbn;
    [reflexivity|].
  now rewrite IH.
Qed.

End KernelFacts.

Section ZipFacts.

Context {A : Type}.

Lemma zip4_firstn (k : nat) :
  forall s m d t : list A,
    zip4 (firstn k s) (firstn k m) (firstn k d) (firstn k t) =
    firstn k (zip4 s m d t).
Proof.
  induction k as [|k IH]; intros [|x s] [|y m] [|z d] [|w t]; cbn;
    try reflexivity.
  now rewrite IH.
Qed.

Lemma zip4_full (s m d t : list A) :
  length s = length t -> length m = length t -> length d = length t ->
  map snd (zip4 s m d t) = t.
Proof.
  revert m d t.
  induction s as [|x s IH]; intros [|y m] [|z d] [|w t] Hs Hm Hd;
    try discriminate; cbn; [reflexivity|].
  rewrite IH; [reflexivity| |  |]; cbn in *; lia.
Qed.

End ZipFacts.

(** ** The per-year recurrence *)

(** C1.  Whenever both allocation keys are present, [portfolio_annuity]
    returns, and in every year [i] its outputs are computed from the cash [C]
    and equity [E] the previous year ended with (the starting balances in the
    first year) by: dividend = E * yield, interest = C * rate, capital return
    = E * market return, net distribution = salary + dividend + interest -
    tail cost - drawdown, new cash = C + net * cash fraction, new equity =
    E + (capital return + net * equity fraction); nothing floors or clamps
    the result.  On the program's constants, with zero salary, market return
    and tail cost and a drawdown of 50000, year 1 gives dividend 840,
    interest 1800, net distribution -47360, cash 55264 and equity 17376, and
    year 2 already ends with negative equity. *)
Theorem portfolio_annuity_recurrence :
  (forall (A : Type) (SA : Scalar A) (cfg : Config A) (cf ef : A)
          (s m d t : list A),
      dict_get (PORTFOLIO_DISTRIBUTION cfg) "cash" = Ok cf ->
      dict_get (PORTFOLIO_DISTRIBUTION cfg) "equity" = Ok ef ->
      exists p,
        portfolio_annuity cfg s m d t = Ok p /\
        forall i C E sal snp_perc dd tail,
          nth_error (STARTING_CASH cfg :: cash_pos p) i = Some C ->
          nth_error (STARTING_EQUITY cfg :: equity_pos p) i = Some E ->
          nth_error (zip4 s m d t) i = Some (sal, snp_perc, dd, tail) ->
          let dividend := (E * SNP_DIV_YIELD cfg)%num in
          let interest := (C * INTEREST_RATE cfg)%num in
          let capital_return := (E * snp_perc)%num in
          let net := (sal + dividend + interest - tail - dd)%num in
          nth_error (dividend_pos p) i = Some dividend /\
          nth_error (interest_pos p) i = Some interest /\
          nth_error (snp_return_pos p) i = Some capital_return /\
          nth_error (tail_risk_pos p) i = Some tail /\
          nth_error (cash_pos p) i = Some (C + net * cf)%num /\
          nth_error (equity_pos p) i = Some (E + (capital_return + net * ef))%num)
  /\
  (exists p,
      portfolio_annuity source_config (flat_scenario 0) (flat_scenario 0)
                        (flat_scenario 5e4) (flat_scenario 0) = Ok p /\
      nth_error (dividend_pos p) 0 = Some 840%float /\
      nth_error (interest_pos p) 0 = Some 1800%float /\
      (0 + 840 + 1800 - 0 - 5e4 = -47360)%float /\
      nth_error (cash_pos p) 0 = Some 55264%float /\
      nth_error (equity_pos p) 0 = Some 17376%float /\
      exists E2, nth_error (equity_pos p) 1 = Some E2 /\ (E2 <? 0)%float = true).
Proof.
  split.
  - intros A SA cfg cf ef s m d t Hc He.
    eexists. split; [apply (portfolio_annuity_trace cfg Hc He)|].
    intros i C E sal snp_perc dd tail HC HE Hrow.
    cbn [columns cash_pos equity_pos] in HC, HE.
    pose proof (trace_nth cfg cf ef _ _ _ _ HC HE Hrow) as Hy.
    cbn [columns cash_pos equity_pos dividend_pos interest_pos
         snp_return_pos tail_risk_pos].
    rewrite !nth_error_map, Hy. cbn. repeat split.
  - eexists. split; [vm_compute; reflexivity|].
    repeat split. eexists. split; [vm_compute; reflexivity|reflexivity].
Qed.

(** The recurrence read off a one-year run on the program's constants. *)
Lemma portfolio_annuity_recurrence_witness :
  exists p,
    portfolio_annuity source_config [0%float] [0%float] [5e4%float] [0%float] = Ok p /\
    forall i C E sal snp_perc dd tail,
      nth_error (STARTING_CASH source_config :: cash_pos p) i = Some C ->
      nth_error (STARTING_EQUITY source_config :: equity_pos p) i = Some E ->
      nth_error (zip4 [0%float] [0%float] [5e4%float] [0%float]) i
        = Some (sal, snp_perc, dd, tail) ->
      let dividend := (E * SNP_DIV_YIELD source_config)%num in
      let interest := (C * INTEREST_RATE source_config)%num in
      let capital_return := (E * snp_perc)%num in
      let net := (sal + dividend + interest - tail - dd)%num in
      nth_error (dividend_pos p) i = Some dividend /\
      nth_error (interest_pos p) i = Some interest /\
      nth_error (snp_return_pos p) i = Some capital_return /\
      nth_error (tail_risk_pos p) i = Some tail /\
      nth_error (cash_pos p) i = Some (C + net * 0.1%float)%num /\
      nth_error (equity_pos p) i = Some (E + (capital_return + net * 0.9%float))%num.
Proof.
  apply (proj1 portfolio_annuity_recurrence float float_Scalar source_config
           0.1%float 0.9%float); reflexivity.
Defined.

(** ** Input shape *)

(** C3, as the specification states it, fails: a salary sequence of one
    entry, with the other three of horizon length, is accepted. *)
Lemma portfolio_annuity_accepts_wrong_shape :
  ~ rejects_wrong_shape source_config.
Proof.
  intros Hguard.
  destruct (Hguard [1e5%float] (flat_scenario 0) (flat_scenario 5e4) (flat_scenario 0))
    as [e He].
  - left. cbn. discriminate.
  - vm_compute in He. discriminate He.
Qed.

(** C3, amended.  [portfolio_annuity] checks no length.  With both
    allocation keys present it never raises; it walks the four sequences in
    lockstep and stops at the end of the shortest, so every output has as
    many entries as the shortest input and the result is the one obtained
    from the inputs cut to that length.  Nothing is ever padded. *)
Theorem portfolio_annuity_truncates :
  forall (A : Type) (SA : Scalar A) (cfg : Config A) (cf ef : A)
         (s m d t : list A),
    dict_get (PORTFOLIO_DISTRIBUTION cfg) "cash" = Ok cf ->
    dict_get (PORTFOLIO_DISTRIBUTION cfg) "equity" = Ok ef ->
    let k := Nat.min (Nat.min (length s) (length m))
                     (Nat.min (length d) (length t)) in
    exists p,
      portfolio_annuity cfg s m d t = Ok p /\
      portfolio_annuity cfg (firstn k s) (firstn k m) (firstn k d) (firstn k t) = Ok p /\
      length (cash_pos p) = k /\
      length (equity_pos p) = k /\
      length (dividend_pos p) = k /\
      length (interest_pos p) = k /\
      length (snp_return_pos p) = k /\
      length (tail_risk_pos p) = k.
Proof.
  intros A SA cfg cf ef s m d t Hc He k.
  eexists. split; [apply (portfolio_annuity_trace cfg Hc He)|].
  split.
  - rewrite (portfolio_annuity_trace cfg Hc He), zip4_firstn.
    unfold k. rewrite <- zip4_length, firstn_all. reflexivity.
  - cbn [columns cash_pos equity_pos dividend_pos interest_pos
         snp_return_pos tail_risk_pos].
    rewrite !length_map, trace_length, zip4_length. repeat split.
Qed.

(** A one-entry salary against three horizon-length sequences: one year is
    computed and returned. *)
Lemma portfolio_annuity_truncates_witness :
  exists p,
    portfolio_annuity source_config [1e5%float] (flat_scenario 0)
                      (flat_scenario 5e4) (flat_scenario 0) = Ok p /\
    portfolio_annuity source_config [1e5%float] [0%float] [5e4%float] [0%float] = Ok p /\
    length (cash_pos p) = 1 /\
    length (equity_pos p) = 1 /\
    length (dividend_pos p) = 1 /\
    length (interest_pos p) = 1 /\
    length (snp_return_pos p) = 1 /\
    length (tail_risk_pos p) = 1.
Proof.
  apply (@portfolio_annuity_truncates float float_Scalar source_config
           0.1%float 0.9%float [1e5%float] (flat_scenario 0)
           (flat_scenario 5e4) (flat_scenario 0)); reflexivity.
Defined.

(** ** The driver *)

Create HintDb blind.

Section DriverFacts.

Context {G : Generator}.
Local Open Scope scalar_scope.

(** *** The log never feeds back *)

Lemma log_blind_ret {T} (x : T) : log_blind (ret x).
Proof. intros w1 w2 E. now split. Qed.

Lemma log_blind_raise {T} (e : exn) : log_blind (@raise G T e).
Proof. intros w1 w2 E. now split. Qed.

Lemma log_blind_lift {T} (r : result T) : log_blind (lift r).
Proof. intros w1 w2 E. now split. Qed.

Lemma log_blind_logger (lvl : Level) (msg : string) : log_blind (logger lvl msg).
Proof. intros w1 w2 E. now split. Qed.

Lemma log_blind_sample {T} (draw : rng -> T * rng) (size : nat) :
  log_blind (sample draw size).
Proof.
  intros w1 w2 E. unfold sample. rewrite E.
  destruct (draws draw size (rng_state w2)). now split.
Qed.

Lemma log_blind_bind {T U} (m : M T) (k : T -> M U) :
  log_blind m -> (forall x, log_blind (k x)) -> log_blind (bind m k).
Proof.
  intros Hm Hk w1 w2 E. unfold bind.
  destruct (Hm w1 w2 E) as [Hr Hg].
  destruct (m w1) as [[x1|e1] w1'], (m w2) as [[x2|e2] w2']; cbn in Hr, Hg;
    try discriminate Hr.
  - injection Hr as ->. now apply Hk.
  - injection Hr as ->. now split.
Qed.

#[local] Hint Resolve log_blind_ret log_blind_raise log_blind_lift
  log_blind_logger log_blind_sample log_blind_bind : blind.

Lemma log_blind_one_run (cfg : Config float) (sims : list Run) (i : nat) :
  log_blind (one_run cfg sims i).
Proof.
  unfold one_run, np_random_normal, np_random_binomial.
  repeat (apply log_blind_bind; [auto with blind | intros ?]).
  auto with blind.
Qed.

Lemma log_blind_for_range (cfg : Config float) (ixs : list nat) :
  forall sims, log_blind (for_range cfg ixs sims).
Proof.
  induction ixs as [|i ixs IH]; intros sims; cbn [for_range].
  - auto with blind.
  - apply log_blind_bind; [apply log_blind_one_run | intros x; apply IH].
Qed.

(** *** Draws *)

Lemma draws_length {T} (draw : rng -> T * rng) (size : nat) :
  forall g, length (fst (draws draw size g)) = size.
Proof.
  induction size as [|size IH]; intros g; cbn; [reflexivity|].
  destruct (draw g) as [x g']. specialize (IH g').
  destruct (draws draw size g'). cbn in *. now rewrite IH.
Qed.

Lemma draws_Forall {T} (P : T -> Prop) (draw : rng -> T * rng) (size : nat) :
  (forall g, P (fst (draw g))) ->
  forall g, Forall P (fst (draws draw size g)).
Proof.
  intros HP. induction size as [|size IH]; intros g; cbn; [constructor|].
  pose proof (HP g) as Hx. destruct (draw g) as [x g']. specialize (IH g').
  destruct (draws draw size g'). cbn in *. now constructor.
Qed.

(** *** The batch as a function of the seeded stream

    With both allocation keys present no run can raise, and the batch is the
    pure function [batch_from] of the generator state the first run starts
    from. *)

Variable cfg : Config float.
Variables cf ef : float.
Hypothesis cash_key : dict_get (PORTFOLIO_DISTRIBUTION cfg) "cash" = Ok cf.
Hypothesis equity_key : dict_get (PORTFOLIO_DISTRIBUTION cfg) "equity" = Ok ef.

Lemma one_run_ok (sims : list Run) (i : nat) (w : World) :
  one_run cfg sims i w =
  (Ok (sims ++ [fst (scenario_run cfg cf ef i (rng_state w))]),
   {| rng_state := snd (scenario_run cfg cf ef i (rng_state w)); log := log w |}).
Proof.
  unfold one_run, scenario_run, bind, np_random_normal, np_random_binomial,
    sample, lift, ret.
  cbn [rng_state log].
  destruct (draws (normal 0.12%float 0.2%float) (YEARS_REMAINING cfg) (rng_state w))
    as [snp g1]. cbn [rng_state log fst snd].
  destruct (draws (normal 0.03%float 0.035%float) (YEARS_REMAINING cfg) g1)
    as [infl g2]. cbn [rng_state log fst snd].
  destruct (draws (binomial 1 (TAIL_RISK_PROBABILITY cfg)) (YEARS_REMAINING cfg) g2)
    as [ind g3]. cbn [rng_state log fst snd].
  rewrite (portfolio_annuity_trace cfg cash_key equity_key). reflexivity.
Qed.

Lemma for_range_ok (ixs : list nat) :
  forall sims w,
    for_range cfg ixs sims w =
    (Ok (sims ++ fst (batch_from cfg cf ef ixs (rng_state w))),
     {| rng_state := snd (batch_from cfg cf ef ixs (rng_state w)); log := log w |}).
Proof.
  induction ixs as [|i ixs IH]; intros sims w; cbn [for_range batch_from].
  - unfold ret. rewrite app_nil_r. now destruct w.
  - unfold bind. rewrite one_run_ok, IH. cbn [rng_state log fst snd].
    now rewrite <- app_assoc.
Qed.

Lemma monte_carlo_ok (runs : nat) (w : World) :
  monte_carlo cfg runs w =
  (Ok (fst (batch_from cfg cf ef (seq 0 runs) (seed 42))),
   {| rng_state := snd (batch_from cfg cf ef (seq 0 runs) (seed 42));
      log := log w ++ [(INFO, ("Running " ++ str runs ++ " simulations.")%string)] |}).
Proof.
  unfold monte_carlo, bind, logger, np_random_seed.
  now rewrite for_range_ok.
Qed.

Lemma batch_from_app (ixs jxs : list nat) :
  forall g,
    fst (batch_from cfg cf ef (ixs ++ jxs) g) =
    fst (batch_from cfg cf ef ixs g)
      ++ fst (batch_from cfg cf ef jxs (snd (batch_from cfg cf ef ixs g))).
Proof.
  induction ixs as [|i ixs IH]; intros g; cbn; [reflexivity|].
  now rewrite IH.
Qed.

Lemma batch_from_length (ixs : list nat) :
  forall g, length (fst (batch_from cfg cf ef ixs g)) = length ixs.
Proof.
  induction ixs as [|i ixs IH]; intros g; cbn; [reflexivity|].
  now rewrite IH.
Qed.

Lemma batch_from_Forall (P : Run -> Prop) :
  (forall i g, P (fst (scenario_run cfg cf ef i g))) ->
  forall ixs g, Forall P (fst (batch_from cfg cf ef ixs g)).
Proof.
  intros HP. induction ixs as [|i ixs IH]; intros g; cbn [batch_from fst];
    constructor; [apply HP | apply IH].
Qed.

(** The rows the recurrence engine is handed inside a run are never cut:
    all four sequences have horizon length. *)
Lemma scenario_rows_length (snp infl : list float) (ind : list Z) :
  length snp = YEARS_REMAINING cfg ->
  length infl = YEARS_REMAINING cfg ->
  length ind = YEARS_REMAINING cfg ->
  length (zip4 (salary_of cfg) snp (drawdown_of cfg infl)
            (scale (TAIL_RISK_COST cfg) (map of_int ind))) = YEARS_REMAINING cfg.
Proof.
  intros Hs Hi Hd.
  rewrite zip4_length. unfold salary_of, drawdown_of, salary_growth_of.
  rewrite !scale_length, !cumprod_length, shift_length, repeat_length, length_map.
  lia.
Qed.

Lemma scenario_run_lengths (i : nat) (g : rng) :
  run_lengths (YEARS_REMAINING cfg) (fst (scenario_run cfg cf ef i g)).
Proof.
  unfold scenario_run, run_lengths.
  cbn [fst year nest_egg cash_position equity_position salary salary_growth
       div_yield div_return snp_return snp_return_percent interest_return
       inflation living_expenses tail_risk columns cash_pos equity_pos
       dividend_pos interest_pos snp_return_pos tail_risk_pos].
  rewrite np_add_length, !length_map, !trace_length.
  rewrite scenario_rows_length by apply draws_length.
  unfold years, salary_of, drawdown_of, salary_growth_of.
  rewrite !length_map, !scale_length, !cumprod_length, shift_length,
    !repeat_length, length_seq, !draws_length.
  repeat split. apply Nat.min_id.
Qed.

End DriverFacts.

(** ** Net worth *)

(** C10, as stated, fails on the program's binary64 arithmetic although its
    fractions 0.1 and 0.9 do sum to 1 there: with every input zero over the
    whole horizon, the second year's nest egg is 125321.18400000001 while
    the first year's nest egg plus capital return plus net distribution is
    125321.184, however the sum is bracketed. *)
Lemma nest_egg_identity_fails_in_binary64 :
  distribution_sums_to_one source_config = true /\
  ~ nest_egg_identity source_config (flat_scenario 0) (flat_scenario 0)
                      (flat_scenario 0) (flat_scenario 0) /\
  (exists p,
      portfolio_annuity source_config (flat_scenario 0) (flat_scenario 0)
                        (flat_scenario 0) (flat_scenario 0) = Ok p /\
      nth_error (np_add (cash_pos p) (equity_pos p)) 0 = Some 122640%float /\
      nth_error (np_add (cash_pos p) (equity_pos p)) 1 = Some 125321.18400000001%float /\
      nth_error (snp_return_pos p) 1 = Some 0%float /\
      nth_error (dividend_pos p) 1 = Some 873.264%float /\
      nth_error (interest_pos p) 1 = Some 1807.9199999999998%float /\
      (122640 + 0 + (0 + 873.264 + 1807.9199999999998 - 0 - 0) = 125321.184)%float /\
      (122640 + (0 + (0 + 873.264 + 1807.9199999999998 - 0 - 0)) = 125321.184)%float /\
      (125321.18400000001 <> 125321.184)%float).
Proof.
  split; [reflexivity|]. split.
  - unfold nest_egg_identity.
    destruct (portfolio_annuity source_config (flat_scenario 0) (flat_scenario 0)
                (flat_scenario 0) (flat_scenario 0)) as [p|e] eqn:Ep;
      [|vm_compute in Ep; discriminate Ep].
    intros Hid. specialize (Hid p eq_refl).
    vm_compute in Ep. injection Ep as <-.
    specialize (Hid 1%nat _ _ _ _ _ _ _ _ eq_refl eq_refl eq_refl eq_refl eq_refl).
    vm_compute in Hid.
    apply (f_equal (fun o => match o with Some x => x | None => 0%float end)) in Hid.
    discriminate Hid.
  - eexists. split; [vm_compute; reflexivity|].
    repeat split. intros Hne. discriminate Hne.
Qed.

(** C10, amended.  In exact arithmetic, whenever both allocation keys are
    present and their fractions sum to 1, net worth obeys the simpler
    recurrence: in every year the nest egg equals the previous nest egg (the
    sum of the starting balances in the first year) plus that year's capital
    return plus that year's net distribution.  In the program's binary64
    arithmetic the nest egg a run reports is the rounded sum of its two
    rounded balances, year by year. *)
Theorem nest_egg_recurrence_exact :
  (forall (cfg : Config Qc) (cf ef : Qc) (s m d t : list Qc),
      dict_get (PORTFOLIO_DISTRIBUTION cfg) "cash" = Ok cf ->
      dict_get (PORTFOLIO_DISTRIBUTION cfg) "equity" = Ok ef ->
      (cf + ef)%Qc = 1%Qc ->
      (exists p, portfolio_annuity cfg s m d t = Ok p) /\
      nest_egg_identity cfg s m d t)
  /\
  (forall (G : Generator) (cfg : Config float) (cf ef : float)
          (runs : nat) (w : World),
      dict_get (PORTFOLIO_DISTRIBUTION cfg) "cash" = Ok cf ->
      dict_get (PORTFOLIO_DISTRIBUTION cfg) "equity" = Ok ef ->
      exists batch w',
        monte_carlo cfg runs w = (Ok batch, w') /\
        length batch = runs /\
        Forall (fun r => nest_egg r = np_add (cash_position r) (equity_position r))
               batch).
Proof.
  split.
  - intros cfg cf ef s m d t Hc He Hsum.
    split; [eexists; apply (portfolio_annuity_trace cfg Hc He)|].
    intros p Hp i N0 cr dividend interest sal snp_perc dd tail HN0 Hcr Hdiv Hint Hrow.
    rewrite (portfolio_annuity_trace cfg Hc He) in Hp. injection Hp as <-.
    cbn [columns cash_pos equity_pos dividend_pos interest_pos snp_return_pos] in *.
    change ((STARTING_CASH cfg + STARTING_EQUITY cfg)%num
              :: np_add (map y_cash (trace cfg cf ef (STARTING_CASH cfg)
                                       (STARTING_EQUITY cfg) (zip4 s m d t)))
                        (map y_equity (trace cfg cf ef (STARTING_CASH cfg)
                                         (STARTING_EQUITY cfg) (zip4 s m d t))))
      with (np_add (STARTING_CASH cfg
                      :: map y_cash (trace cfg cf ef (STARTING_CASH cfg)
                                       (STARTING_EQUITY cfg) (zip4 s m d t)))
                   (STARTING_EQUITY cfg
                      :: map y_equity (trace cfg cf ef (STARTING_CASH cfg)
                                         (STARTING_EQUITY cfg) (zip4 s m d t))))
      in HN0.
    destruct (np_add_nth_inv _ _ _ HN0) as (C & E & HC & HE & ->).
    pose proof (trace_nth cfg cf ef _ _ _ _ HC HE Hrow) as Hy.
    rewrite nth_error_map, Hy in Hcr, Hdiv, Hint.
    cbn in Hcr, Hdiv, Hint.
    injection Hcr as <-. injection Hdiv as <-. injection Hint as <-.
    rewrite (np_add_nth _ _ i
               (x := y_cash (year_out cfg cf ef C E (sal, snp_perc, dd, tail)))
               (y := y_equity (year_out cfg cf ef C E (sal, snp_perc, dd, tail))))
      by (rewrite nth_error_map, Hy; reflexivity).
    f_equal. unfold net_distribution. cbn.
    set (nd := (sal + E * SNP_DIV_YIELD cfg + C * INTEREST_RATE cfg - tail - dd)%Qc).
    transitivity ((C + E + E * snp_perc + nd * (cf + ef))%Qc); [ring|].
    rewrite Hsum. ring.
  - intros G cfg cf ef runs w Hc He.
    do 2 eexists. split; [apply (monte_carlo_ok cfg Hc He)|].
    split; [now rewrite batch_from_length, length_seq|].
    apply batch_from_Forall. intros i g. reflexivity.
Qed.

(** The program's constants read as exact fractions, one tenth and nine
    tenths, on a two-year scenario. *)
Lemma nest_egg_recurrence_exact_witness :
  (exists p,
      portfolio_annuity exact_config
        [Q2Qc 102000; Q2Qc 104040] [Q2Qc 0.12; Q2Qc (-0.05)]
        [Q2Qc 51500; Q2Qc 53045] [Q2Qc 0; Q2Qc 30000] = Ok p) /\
  nest_egg_identity exact_config
    [Q2Qc 102000; Q2Qc 104040] [Q2Qc 0.12; Q2Qc (-0.05)]
    [Q2Qc 51500; Q2Qc 53045] [Q2Qc 0; Q2Qc 30000].
Proof.
  apply (proj1 nest_egg_recurrence_exact exact_config (Q2Qc 0.1) (Q2Qc 0.9)).
  - reflexivity.
  - reflexivity.
  - apply Qc_is_canon. reflexivity.
Defined.

(** ** Determinism *)

(** C2.  The batch [monte_carlo] returns (or the exception it raises) is the
    same whatever state the generator and the log were in before the call:
    the generator is reseeded with 42 before the first draw.  Two executions
    with the same run count and configuration therefore return equal batches,
    every field of every run included, and leave the generator in the same
    state. *)
Theorem monte_carlo_deterministic :
  forall (G : Generator) (cfg : Config float) (runs : nat) (w1 w2 : World),
    fst (monte_carlo cfg runs w1) = fst (monte_carlo cfg runs w2) /\
    rng_state (snd (monte_carlo cfg runs w1)) = rng_state (snd (monte_carlo cfg runs w2)).
Proof.
  intros G cfg runs w1 w2.
  unfold monte_carlo, bind, logger, np_random_seed.
  apply log_blind_for_range. reflexivity.
Qed.

(** ** Shape of a batch *)

(** C5.  With both allocation keys present, [monte_carlo] returns a batch of
    [runs] runs, and in every run each of the fourteen sequence fields has
    exactly [YEARS_REMAINING] entries. *)
Theorem monte_carlo_lengths :
  forall (G : Generator) (cfg : Config float) (cf ef : float)
         (runs : nat) (w : World),
    dict_get (PORTFOLIO_DISTRIBUTION cfg) "cash" = Ok cf ->
    dict_get (PORTFOLIO_DISTRIBUTION cfg) "equity" = Ok ef ->
    exists batch w',
      monte_carlo cfg runs w = (Ok batch, w') /\
      length batch = runs /\
      Forall (run_lengths (YEARS_REMAINING cfg)) batch.
Proof.
  intros G cfg cf ef runs w Hc He.
  do 2 eexists. split; [apply (monte_carlo_ok cfg Hc He)|].
  split.
  - now rewrite batch_from_length, length_seq.
  - apply batch_from_Forall. intros i g. apply scenario_run_lengths.
Qed.

(** Three runs of the program's constants on the [lcg] stream. *)
Lemma monte_carlo_lengths_witness :
  exists batch w',
    @monte_carlo lcg source_config 3 lcg_world = (Ok batch, w') /\
    length batch = 3 /\
    Forall (run_lengths (YEARS_REMAINING source_config)) batch.
Proof.
  apply (@monte_carlo_lengths lcg source_config 0.1%float 0.9%float 3 lcg_world);
    reflexivity.
Defined.

(** ** Run independence *)

(** C8.  With both allocation keys present, a batch of [n + k] runs starts
    with the batch of [n] runs: [monte_carlo] with run count [n] returns [b]
    and with run count [n + k] returns [b] followed by [k] more runs,
    whatever the worlds the two calls start in.  For [n = k = 1]: run 0 of a
    two-run batch is, field for field, the single run of a one-run batch. *)
Theorem earlier_runs_unaffected :
  forall (G : Generator) (cfg : Config float) (cf ef : float)
         (n k : nat) (w1 w2 : World),
    dict_get (PORTFOLIO_DISTRIBUTION cfg) "cash" = Ok cf ->
    dict_get (PORTFOLIO_DISTRIBUTION cfg) "equity" = Ok ef ->
    exists b b' w1' w2',
      monte_carlo cfg n w1 = (Ok b, w1') /\
      monte_carlo cfg (n + k) w2 = (Ok (b ++ b'), w2') /\
      length b = n /\ length b' = k.
Proof.
  intros G cfg cf ef n k w1 w2 Hc He.
  exists (fst (batch_from cfg cf ef (seq 0 n) (seed 42))).
  exists (fst (batch_from cfg cf ef (seq n k)
                 (snd (batch_from cfg cf ef (seq 0 n) (seed 42))))).
  do 2 eexists. split; [apply (monte_carlo_ok cfg Hc He)|].
  split.
  - rewrite (monte_carlo_ok cfg Hc He), seq_app, batch_from_app. reflexivity.
  - now rewrite !batch_from_length, !length_seq.
Qed.

(** Run counts 1 and 2 on the program's constants, from different worlds. *)
Lemma earlier_runs_unaffected_witness :
  exists b b' w1' w2',
    @monte_carlo lcg source_config 1 lcg_world = (Ok b, w1') /\
    @monte_carlo lcg source_config (1 + 1)
       (@Build_World lcg 7%Z [(INFO, "earlier"%string)]) = (Ok (b ++ b'), w2') /\
    length b = 1 /\ length b' = 1.
Proof.
  apply (@earlier_runs_unaffected lcg source_config 0.1%float 0.9%float);
    reflexivity.
Defined.

(** ** Tail risk *)

(** What a run reports as [tail_risk] is the cost scaled by the binomial
    indicators it drew, each of which is 0 or 1. *)
Lemma scenario_run_tail_risk (G : Generator) (cfg : Config float) (cf ef : float)
      (i : nat) (g : rng) :
  exists indicator : list Z,
    Forall (fun k => (0 <= k <= 1)%Z) indicator /\
    tail_risk (fst (scenario_run cfg cf ef i g)) =
    scale (TAIL_RISK_COST cfg) (map of_int indicator).
Proof.
  unfold scenario_run.
  set (d1 := draws (normal 0.12%float 0.2%float) (YEARS_REMAINING cfg) g).
  set (d2 := draws (normal 0.03%float 0.035%float) (YEARS_REMAINING cfg) (snd d1)).
  set (d3 := draws (binomial 1 (TAIL_RISK_PROBABILITY cfg)) (YEARS_REMAINING cfg) (snd d2)).
  exists (fst d3). split.
  - apply draws_Forall. intros g'. apply binomial_range. lia.
  - cbn [fst tail_risk columns tail_risk_pos].
    rewrite trace_tail. apply zip4_full.
    + unfold salary_of, salary_growth_of.
      rewrite !scale_length, cumprod_length, repeat_length, length_map.
      symmetry. apply draws_length.
    + rewrite scale_length, length_map. unfold d1, d3. now rewrite !draws_length.
    + unfold drawdown_of.
      rewrite !scale_length, cumprod_length, shift_length, length_map.
      unfold d2, d3. now rewrite !draws_length.
Qed.

(** C7.  On the program's constants and whatever the generator, every batch
    [monte_carlo] returns has, in every run and every year, a [tail_risk]
    entry that is exactly 0 or exactly [TAIL_RISK_COST] (30000). *)
Theorem tail_risk_zero_or_cost :
  forall (G : Generator) (runs : nat) (w : World),
    exists batch w',
      monte_carlo source_config runs w = (Ok batch, w') /\
      length batch = runs /\
      Forall (fun r =>
                length (tail_risk r) = YEARS_REMAINING source_config /\
                Forall (fun x => x = 0%float \/ x = TAIL_RISK_COST source_config)
                       (tail_risk r)) batch.
Proof.
  intros G runs w.
  assert (Hc : dict_get (PORTFOLIO_DISTRIBUTION source_config) "cash" = Ok 0.1%float)
    by reflexivity.
  assert (He : dict_get (PORTFOLIO_DISTRIBUTION source_config) "equity" = Ok 0.9%float)
    by reflexivity.
  do 2 eexists. split; [apply (monte_carlo_ok source_config Hc He)|].
  split; [now rewrite batch_from_length, length_seq|].
  apply batch_from_Forall. intros i g. split.
  - apply (scenario_run_lengths source_config 0.1%float 0.9%float i g).
  - destruct (scenario_run_tail_risk G source_config 0.1%float 0.9%float i g)
      as (indicator & Hind & ->).
    unfold scale. rewrite !Forall_map.
    apply (Forall_impl _ (P := fun k => (0 <= k <= 1)%Z)); [|exact Hind].
    intros k Hk.
    assert (Hk' : k = 0%Z \/ k = 1%Z) by lia.
    destruct Hk' as [-> | ->]; [left | right]; reflexivity.
Qed.

(** ** Salary *)

Section SalaryFacts.

Context {A : Type} `{Scalar A}.
Local Open Scope scalar_scope.

Lemma scale_nth (c : A) (a : list A) (t : nat) (x : A) :
  nth_error a t = Some x -> nth_error (scale c a) t = Some (c * x).
Proof. intros Hx. unfold scale. now rewrite nth_error_map, Hx. Qed.

Lemma salary_of_nth (cfg : Config A) (t : nat) :
  t < YEARS_REMAINING cfg ->
  nth_error (salary_of cfg) t =
  Some (AFTER_TAX_SALARY cfg
        * prod_upto (fun _ => of_int 1 + SALARY_GROWTH_RATE cfg) t).
Proof.
  intros Ht. unfold salary_of, salary_growth_of.
  set (x := of_int 1 + SALARY_GROWTH_RATE cfg).
  assert (Hx : nth_error (repeat x (YEARS_REMAINING cfg)) t = Some x)
    by now apply nth_error_repeat.
  rewrite (scale_nth _ _ _ (cumprod_nth _ _ Hx)). do 2 f_equal.
  apply prod_upto_ext. intros k _. apply nth_repeat.
Qed.

Lemma drawdown_of_nth (cfg : Config A) (inflation : list A) (t : nat) (x : A) :
  nth_error inflation t = Some x ->
  nth_error (drawdown_of cfg inflation) t =
  Some (ANNUAL_DRAWDOWN cfg * prod_upto (fun k => of_int 1 + nth k inflation x) t).
Proof.
  intros Hx. unfold drawdown_of, shift.
  assert (Hy : nth_error (map (fun y => of_int 1 + y) inflation) t
               = Some (of_int 1 + x))
    by now rewrite nth_error_map, Hx.
  rewrite (scale_nth _ _ _ (cumprod_nth _ _ Hy)). do 2 f_equal.
  apply prod_upto_ext. intros k _.
  exact (map_nth (fun y => of_int 1 + y) inflation x k).
Qed.

End SalaryFacts.

(** C9.  With both allocation keys present and whatever the generator, in
    every run of a batch the salary growth factors are the constant
    [1 + SALARY_GROWTH_RATE] repeated for every year, and the salary of year
    [t] is [AFTER_TAX_SALARY] times the product of [t + 1] such factors; no
    draw enters either, and all runs of a batch have the same salary
    sequence. *)
Theorem salary_is_fixed_rate_compounding :
  forall (G : Generator) (cfg : Config float) (cf ef : float)
         (runs : nat) (w : World),
    dict_get (PORTFOLIO_DISTRIBUTION cfg) "cash" = Ok cf ->
    dict_get (PORTFOLIO_DISTRIBUTION cfg) "equity" = Ok ef ->
    exists batch w',
      monte_carlo cfg runs w = (Ok batch, w') /\
      length batch = runs /\
      Forall (fun r =>
                salary_growth r =
                repeat (1 + SALARY_GROWTH_RATE cfg)%float (YEARS_REMAINING cfg) /\
                length (salary r) = YEARS_REMAINING cfg /\
                forall t, t < YEARS_REMAINING cfg ->
                  nth_error (salary r) t =
                  Some (AFTER_TAX_SALARY cfg
                        * prod_upto (fun _ => 1 + SALARY_GROWTH_RATE cfg) t)%float)
             batch /\
      (forall r1 r2, In r1 batch -> In r2 batch -> salary r1 = salary r2).
Proof.
  intros G cfg cf ef runs w Hc He.
  do 2 eexists. split; [apply (monte_carlo_ok cfg Hc He)|].
  split; [now rewrite batch_from_length, length_seq|].
  assert (Hall : Forall (fun r => salary r = salary_of cfg /\
                                  salary_growth r = salary_growth_of cfg)
                        (fst (batch_from cfg cf ef (seq 0 runs) (seed 42)))).
  { apply batch_from_Forall. intros i g. split; reflexivity. }
  split.
  - apply (Forall_impl _ (P := fun r => salary r = salary_of cfg /\
                                        salary_growth r = salary_growth_of cfg));
      [|exact Hall].
    intros r [Hs Hg]. rewrite Hs, Hg. split; [reflexivity|]. split.
    + unfold salary_of, salary_growth_of.
      now rewrite scale_length, cumprod_length, repeat_length.
    + intros t Ht. rewrite (salary_of_nth cfg Ht). reflexivity.
  - intros r1 r2 H1 H2. rewrite Forall_forall in Hall.
    destruct (Hall r1 H1) as [-> _]. destruct (Hall r2 H2) as [-> _]. reflexivity.
Qed.

(** Two runs of the program's constants on the [lcg] stream. *)
Lemma salary_is_fixed_rate_compounding_witness :
  exists batch w',
    @monte_carlo lcg source_config 2 lcg_world = (Ok batch, w') /\
    length batch = 2 /\
    Forall (fun r =>
              salary_growth r =
              repeat (1 + SALARY_GROWTH_RATE source_config)%float
                     (YEARS_REMAINING source_config) /\
              length (salary r) = YEARS_REMAINING source_config /\
              forall t, t < YEARS_REMAINING source_config ->
                nth_error (salary r) t =
                Some (AFTER_TAX_SALARY source_config
                      * prod_upto (fun _ => 1 + SALARY_GROWTH_RATE source_config) t)%float)
           batch /\
    (forall r1 r2, In r1 batch -> In r2 batch -> salary r1 = salary r2).
Proof.
  apply (@salary_is_fixed_rate_compounding lcg source_config 0.1%float 0.9%float
           2 lcg_world); reflexivity.
Defined.

(** ** Drawdown *)

(** C6, as stated, fails in its example: on the program's binary64
    arithmetic three years of 5% inflation on 50000 do not give
    [52500, 55125, 57881.25]; the third entry differs in its last bit. *)
Lemma drawdown_example_differs_in_binary64 :
  drawdown_of source_config [0.05; 0.05; 0.05]%float
  <> [52500; 55125; 57881.25]%float.
Proof.
  intros Heq.
  apply (f_equal (fun l => nth 2 l 0%float)) in Heq.
  vm_compute in Heq. discriminate Heq.
Qed.

(** C6, amended.  The drawdown sequence is the cumulative compounding of the
    inflation sequence: entry [t] is [ANNUAL_DRAWDOWN] (the fixed expenses
    plus 0, equal to the fixed expenses on the program's constants) times the
    product of [1 + inflation_k] for [k = 0..t], multiplied left to right;
    this is what every run reports as its living expenses.  With inflation
    0.05 for three years and fixed expenses 50000 the sequence is
    [52500, 55125, 57881.25] in exact arithmetic, and
    [52500, 55125, 57881.25000000001] in the program's binary64. *)
Theorem drawdown_compounds_inflation :
  (forall (A : Type) (SA : Scalar A) (cfg : Config A) (inflation : list A)
          (t : nat) (x : A),
      nth_error inflation t = Some x ->
      nth_error (drawdown_of cfg inflation) t =
      Some (ANNUAL_DRAWDOWN cfg
            * prod_upto (fun k => of_int 1 + nth k inflation x) t)%num)
  /\
  (forall (G : Generator) (cfg : Config float) (cf ef : float)
          (runs : nat) (w : World),
      dict_get (PORTFOLIO_DISTRIBUTION cfg) "cash" = Ok cf ->
      dict_get (PORTFOLIO_DISTRIBUTION cfg) "equity" = Ok ef ->
      exists batch w',
        monte_carlo cfg runs w = (Ok batch, w') /\
        length batch = runs /\
        Forall (fun r => length (inflation r) = YEARS_REMAINING cfg /\
                         living_expenses r = drawdown_of cfg (inflation r)) batch)
  /\
  ANNUAL_DRAWDOWN source_config = FIXED_EXPENSES source_config
  /\
  drawdown_of source_config [0.05; 0.05; 0.05]%float
  = [52500; 55125; 57881.25000000001]%float
  /\
  drawdown_of exact_config [Q2Qc 0.05; Q2Qc 0.05; Q2Qc 0.05]
  = [Q2Qc 52500; Q2Qc 55125; Q2Qc 57881.25].
Proof.
  split; [|split; [|split; [|split]]].
  - intros A SA cfg inflation t x Hx. now apply drawdown_of_nth.
  - intros G cfg cf ef runs w Hc He.
    do 2 eexists. split; [apply (monte_carlo_ok cfg Hc He)|].
    split; [now rewrite batch_from_length, length_seq|].
    apply batch_from_Forall. intros i g. split; [|reflexivity].
    apply (scenario_run_lengths cfg cf ef i g).
  - reflexivity.
  - vm_compute. reflexivity.
  - cbn. repeat (f_equal; try (apply Qc_is_canon; reflexivity)).
Qed.

(** The formula at the third year of the example, and two runs on the
    [lcg] stream. *)
Lemma drawdown_compounds_inflation_witness :
  nth_error (drawdown_of source_config [0.05; 0.05; 0.05]%float) 2 =
  Some (ANNUAL_DRAWDOWN source_config
        * prod_upto (fun k => of_int 1 + nth k [0.05; 0.05; 0.05]%float 0.05%float) 2)%num
  /\
  exists batch w',
    @monte_carlo lcg source_config 2 lcg_world = (Ok batch, w') /\
    length batch = 2 /\
    Forall (fun r => length (inflation r) = YEARS_REMAINING source_config /\
                     living_expenses r = drawdown_of source_config (inflation r)) batch.
Proof.
  split.
  - apply (proj1 drawdown_compounds_inflation float float_Scalar source_config
             [0.05; 0.05; 0.05]%float 2 0.05%float).
    reflexivity.
  - apply (proj1 (proj2 drawdown_compounds_inflation) lcg source_config
             0.1%float 0.9%float 2 lcg_world); reflexivity.
Defined.

(** ** The allocation check *)

(** C4.  When the values of the allocation dict do not sum to 1, running the
    program raises [AssertionError] from the module body: the result carries
    no batch, the generator has been neither seeded nor drawn from, and the
    only record logged is the error message, so no run was started.  This is
    the case for the dict [{"cash": 0.4, "equity": 0.5}]; the program's own
    dict passes the check and the run count it then uses is [RUNS]. *)
Theorem bad_distribution_aborts_startup :
  (forall (G : Generator) (cfg : Config float) (w : World),
      distribution_sums_to_one cfg = false ->
      main cfg w =
      (Raise AssertionError,
       {| rng_state := rng_state w;
          log := log w ++ [(ERROR, "Porftolio distribution does not sum to 1"%string)] |}))
  /\
  distribution_sums_to_one
    (with_distribution source_config
       [("cash"%string, 0.4%float); ("equity"%string, 0.5%float)]) = false
  /\
  (forall (G : Generator) (w : World),
      main source_config w = monte_carlo source_config (RUNS source_config) w).
Proof.
  split; [|split].
  - intros G cfg w Hsum. unfold main, module_body, bind. rewrite Hsum.
    reflexivity.
  - reflexivity.
  - intros G w. unfold main, module_body, bind.
    change (distribution_sums_to_one source_config) with true.
    reflexivity.
Qed.

(** The dict [{"cash": 0.4, "equity": 0.5}] on the [lcg] stream. *)
Lemma bad_distribution_aborts_startup_witness :
  @main lcg (with_distribution source_config
               [("cash"%string, 0.4%float); ("equity"%string, 0.5%float)])
        lcg_world =
  (Raise AssertionError,
   @Build_World lcg 2024%Z
     [(ERROR, "Porftolio distribution does not sum to 1"%string)]).
Proof.
  apply (proj1 bad_distribution_aborts_startup lcg
           (with_distribution source_config
              [("cash"%string, 0.4%float); ("equity"%string, 0.5%float)])
           lcg_world).
  reflexivity.
Defined.

(** * Further properties of the recurrence engine *)

Section KernelEdgeFacts.

Context {A : Type} `{Scalar A}.
Local Open Scope scalar_scope.

Lemma dict_get_missing (d : list (string * A)) (key : string) :
  ~ In key (map fst d) -> dict_get d key = Raise (KeyError key).
Proof.
  induction d as [|[k v] d IH]; intros Hk; cbn; [reflexivity|].
  destruct (String.eqb_spec k key) as [->|Hne].
  - exfalso. apply Hk. now left.
  - apply IH. intros Hin. apply Hk. now right.
Qed.

Lemma dict_get_present (d : list (string * A)) (key : string) (v : A) :
  dict_get d key = Ok v -> In (key, v) d.
Proof.
  induction d as [|[k u] d IH]; cbn; [discriminate|].
  destruct (String.eqb_spec k key) as [->|Hne].
  - intros [= ->]. now left.
  - intros Hd. right. now apply IH.
Qed.

Lemma zip4_nil (s m d t : list A) :
  s = [] \/ m = [] \/ d = [] \/ t = [] -> zip4 s m d t = [].
Proof.
  intros [-> | [-> | [-> | ->]]].
  - reflexivity.
  - now destruct s.
  - now destruct s, m.
  - now destruct s, m, d.
Qed.

Lemma zip4_app (s1 m1 d1 t1 s2 m2 d2 t2 : list A) :
  length m1 = length s1 -> length d1 = length s1 -> length t1 = length s1 ->
  zip4 (s1 ++ s2) (m1 ++ m2) (d1 ++ d2) (t1 ++ t2) =
  zip4 s1 m1 d1 t1 ++ zip4 s2 m2 d2 t2.
Proof.
  revert m1 d1 t1.
  induction s1 as [|x s1 IH]; intros [|y m1] [|z d1] [|w t1] Hm Hd Ht;
    try discriminate; cbn; [reflexivity|].
  rewrite IH; [reflexivity| | |]; cbn in *; lia.
Qed.

Lemma trace_firstn (cfg : Config A) (cf ef : A) (k : nat) :
  forall rows C E,
    trace cfg cf ef C E (firstn k rows) = firstn k (trace cfg cf ef C E rows).
Proof.
  induction k as [|k IH]; intros [|row rows] C E; cbn; try reflexivity.
  now rewrite IH.
Qed.

Lemma last_cons_default {B : Type} (l : list B) :
  forall x d, last (x :: l) d = last l x.
Proof.
  induction l as [|y l IH]; intros x d; [reflexivity|].
  change (last (x :: y :: l) d) with (last (y :: l) d).
  now rewrite !IH.
Qed.

Lemma trace_app (cfg : Config A) (cf ef : A) (rows1 rows2 : list (A * A * A * A)) :
  forall C E,
    trace cfg cf ef C E (rows1 ++ rows2) =
    trace cfg cf ef C E rows1
      ++ trace cfg cf ef
           (last (map y_cash (trace cfg cf ef C E rows1)) C)
           (last (map y_equity (trace cfg cf ef C E rows1)) E)
           rows2.
Proof.
  induction rows1 as [|row rows1 IH]; intros C E; [reflexivity|].
  cbn [app trace map]. rewrite IH, !last_cons_default. reflexivity.
Qed.

Lemma trace_with_balances (cfg : Config A) (cf ef C0 E0 : A)
      (rows : list (A * A * A * A)) :
  forall C E,
    trace (with_balances cfg C0 E0) cf ef C E rows = trace cfg cf ef C E rows.
Proof.
  induction rows as [|[[[sal snp_perc] dd] tail] rows IH]; intros C E;
    [reflexivity|].
  cbn [trace]. rewrite IH. reflexivity.
Qed.

(** The first lookup that fails decides the outcome of a non-empty loop. *)
Lemma first_year_raises (cfg : Config A) (e : exn) (s m d t : list A) :
  dict_get (PORTFOLIO_DISTRIBUTION cfg) "cash" = Raise e \/
  (exists cf, dict_get (PORTFOLIO_DISTRIBUTION cfg) "cash" = Ok cf /\
              dict_get (PORTFOLIO_DISTRIBUTION cfg) "equity" = Raise e) ->
  0 < length s -> 0 < length m -> 0 < length d -> 0 < length t ->
  portfolio_annuity cfg s m d t = Raise e.
Proof.
  destruct s as [|x s], m as [|y m], d as [|z d], t as [|w t];
    intros Hfail Hs Hm Hd Ht; cbn in Hs, Hm, Hd, Ht; try lia.
  unfold portfolio_annuity. cbn [zip4 for_each]. unfold loop_body.
  destruct Hfail as [Hc | (cf & Hc & He)].
  - rewrite Hc. reflexivity.
  - rewrite Hc, He. reflexivity.
Qed.

Lemma columns_firstn (k : nat) (tr : list (YearOut A)) :
  columns (firstn k tr) = take_years k (columns tr).
Proof.
  unfold columns, take_years. cbn. now rewrite !firstn_map.
Qed.

Lemma columns_app (tr1 tr2 : list (YearOut A)) :
  columns (tr1 ++ tr2) = then_years (columns tr1) (columns tr2).
Proof.
  unfold columns, then_years. cbn. now rewrite !map_app.
Qed.

End KernelEdgeFacts.

(** X1.  A dict without the key "cash" makes [portfolio_annuity] raise
    [KeyError("cash")] as soon as there is a first year to compute, whatever
    the dict holds under "equity". *)
Theorem portfolio_annuity_missing_cash :
  forall (A : Type) (SA : Scalar A) (cfg : Config A) (s m d t : list A),
    dict_get (PORTFOLIO_DISTRIBUTION cfg) "cash" = Raise (KeyError "cash") ->
    0 < length s -> 0 < length m -> 0 < length d -> 0 < length t ->
    portfolio_annuity cfg s m d t = Raise (KeyError "cash").
Proof.
  intros A SA cfg s m d t Hc Hs Hm Hd Ht.
  apply first_year_raises; auto.
Qed.

Lemma portfolio_annuity_missing_cash_witness :
  portfolio_annuity
    (with_distribution source_config [("equity"%string, 1%float)])
    [1e5%float] [0.12%float] [5e4%float] [0%float]
  = Raise (KeyError "cash").
Proof.
  apply portfolio_annuity_missing_cash; [reflexivity | cbn; lia ..].
Defined.

(** X2.  With "cash" present and "equity" missing, [portfolio_annuity]
    raises [KeyError("equity")] in the first year: nothing is returned of the
    cash balance it had already updated. *)
Theorem portfolio_annuity_missing_equity :
  forall (A : Type) (SA : Scalar A) (cfg : Config A) (cf : A) (s m d t : list A),
    dict_get (PORTFOLIO_DISTRIBUTION cfg) "cash" = Ok cf ->
    dict_get (PORTFOLIO_DISTRIBUTION cfg) "equity" = Raise (KeyError "equity") ->
    0 < length s -> 0 < length m -> 0 < length d -> 0 < length t ->
    portfolio_annuity cfg s m d t = Raise (KeyError "equity").
Proof.
  intros A SA cfg cf s m d t Hc He Hs Hm Hd Ht.
  apply first_year_raises; eauto.
Qed.

Lemma portfolio_annuity_missing_equity_witness :
  portfolio_annuity
    (with_distribution source_config [("cash"%string, 1%float)])
    [1e5%float] [0.12%float] [5e4%float] [0%float]
  = Raise (KeyError "equity").
Proof.
  apply (@portfolio_annuity_missing_equity float float_Scalar
           (with_distribution source_config [("cash"%string, 1%float)]) 1%float);
    [reflexivity | reflexivity | cbn; lia ..].
Defined.

(** X3.  If any of the four sequences is empty, [portfolio_annuity] returns
    six empty sequences and never looks the allocation up: it succeeds even
    on a dict that lacks both keys. *)
Theorem portfolio_annuity_empty_input :
  forall (A : Type) (SA : Scalar A) (cfg : Config A) (s m d t : list A),
    s = [] \/ m = [] \/ d = [] \/ t = [] ->
    portfolio_annuity cfg s m d t = Ok empty_portfolio.
Proof.
  intros A SA cfg s m d t Hnil.
  unfold portfolio_annuity. now rewrite (zip4_nil Hnil).
Qed.

Lemma portfolio_annuity_empty_input_witness :
  portfolio_annuity (with_distribution source_config [])
                    (flat_scenario 0) [] (flat_scenario 5e4) (flat_scenario 0)
  = Ok empty_portfolio.
Proof.
  apply portfolio_annuity_empty_input. right. left. reflexivity.
Defined.

(** X4.  No look-ahead: with both allocation keys present, two calls whose
    inputs agree on their first [k] entries return results that agree on
    their first [k] years, whatever follows in either. *)
Theorem portfolio_annuity_no_look_ahead :
  forall (A : Type) (SA : Scalar A) (cfg : Config A) (cf ef : A) (k : nat)
         (s m d t s' m' d' t' : list A),
    dict_get (PORTFOLIO_DISTRIBUTION cfg) "cash" = Ok cf ->
    dict_get (PORTFOLIO_DISTRIBUTION cfg) "equity" = Ok ef ->
    firstn k s = firstn k s' -> firstn k m = firstn k m' ->
    firstn k d = firstn k d' -> firstn k t = firstn k t' ->
    exists p p',
      portfolio_annuity cfg s m d t = Ok p /\
      portfolio_annuity cfg s' m' d' t' = Ok p' /\
      take_years k p = take_years k p'.
Proof.
  intros A SA cfg cf ef k s m d t s' m' d' t' Hc He Hs Hm Hd Ht.
  do 2 eexists.
  split; [apply (portfolio_annuity_trace cfg Hc He)|].
  split; [apply (portfolio_annuity_trace cfg Hc He)|].
  rewrite <- !columns_firstn, <- !trace_firstn, <- !zip4_firstn.
  now rewrite Hs, Hm, Hd, Ht.
Qed.

Lemma portfolio_annuity_no_look_ahead_witness :
  exists p p',
    portfolio_annuity source_config
      [1e5; 1e5]%float [0.12; 0.3]%float [5e4; 5e4]%float [0; 0]%float = Ok p /\
    portfolio_annuity source_config
      [1e5; 0; 7]%float [0.12; -0.4; 0]%float [5e4; 9e4; 1]%float [0; 3e4; 0]%float
      = Ok p' /\
    take_years 1 p = take_years 1 p'.
Proof.
  apply (@portfolio_annuity_no_look_ahead float float_Scalar source_config
           0.1%float 0.9%float 1); reflexivity.
Defined.

(** X5.  The recurrence can be cut and resumed.  With both allocation keys
    present, running it over the years of a first scenario followed by those
    of a second gives the first scenario's result followed by the result of
    the second scenario started from the balances the first one ended with
    (the starting balances if the first is empty). *)
Theorem portfolio_annuity_resumes :
  forall (A : Type) (SA : Scalar A) (cfg : Config A) (cf ef : A)
         (s1 m1 d1 t1 s2 m2 d2 t2 : list A),
    dict_get (PORTFOLIO_DISTRIBUTION cfg) "cash" = Ok cf ->
    dict_get (PORTFOLIO_DISTRIBUTION cfg) "equity" = Ok ef ->
    length m1 = length s1 -> length d1 = length s1 -> length t1 = length s1 ->
    exists p1 p2,
      portfolio_annuity cfg s1 m1 d1 t1 = Ok p1 /\
      portfolio_annuity
        (with_balances cfg (last (cash_pos p1) (STARTING_CASH cfg))
                           (last (equity_pos p1) (STARTING_EQUITY cfg)))
        s2 m2 d2 t2 = Ok p2 /\
      portfolio_annuity cfg (s1 ++ s2) (m1 ++ m2) (d1 ++ d2) (t1 ++ t2)
      = Ok (then_years p1 p2).
Proof.
  intros A SA cfg cf ef s1 m1 d1 t1 s2 m2 d2 t2 Hc He Hm Hd Ht.
  do 2 eexists.
  split; [apply (portfolio_annuity_trace cfg Hc He)|].
  split.
  - apply (@portfolio_annuity_trace A SA (with_balances cfg _ _) cf ef Hc He).
  - rewrite (portfolio_annuity_trace cfg Hc He).
    rewrite zip4_app by assumption.
    rewrite trace_app, columns_app, trace_with_balances. reflexivity.
Qed.

Lemma portfolio_annuity_resumes_witness :
  exists p1 p2,
    portfolio_annuity source_config
      [1e5; 102000]%float [0.12; -0.2]%float [5e4; 51500]%float [0; 3e4]%float
      = Ok p1 /\
    portfolio_annuity
      (with_balances source_config
         (last (cash_pos p1) (STARTING_CASH source_config))
         (last (equity_pos p1) (STARTING_EQUITY source_config)))
      [104040%float] [0.3%float] [53045%float] [0%float] = Ok p2 /\
    portfolio_annuity source_config
      ([1e5; 102000] ++ [104040])%float ([0.12; -0.2] ++ [0.3])%float
      ([5e4; 51500] ++ [53045])%float ([0; 3e4] ++ [0])%float
    = Ok (then_years p1 p2).
Proof.
  apply (@portfolio_annuity_resumes float float_Scalar source_config
           0.1%float 0.9%float); reflexivity.
Defined.

(** * Further properties of the driver *)

Section DriverEdgeFacts.

Context {G : Generator}.
Local Open Scope scalar_scope.

(** *** Only the batch header is logged *)

Lemma log_silent_ret {T} (x : T) : log_silent (ret x).
Proof. intros w. reflexivity. Qed.

Lemma log_silent_lift {T} (r : result T) : log_silent (lift r).
Proof. intros w. reflexivity. Qed.

Lemma log_silent_sample {T} (draw : rng -> T * rng) (size : nat) :
  log_silent (sample draw size).
Proof.
  intros w. unfold sample. now destruct (draws draw size (rng_state w)).
Qed.

Lemma log_silent_bind {T U} (m : M T) (k : T -> M U) :
  log_silent m -> (forall x, log_silent (k x)) -> log_silent (bind m k).
Proof.
  intros Hm Hk w. unfold bind. specialize (Hm w).
  destruct (m w) as [[x|e] w1]; cbn in Hm |- *.
  - now rewrite Hk.
  - exact Hm.
Qed.

Lemma log_silent_one_run (cfg : Config float) (sims : list Run) (i : nat) :
  log_silent (one_run cfg sims i).
Proof.
  unfold one_run, np_random_normal, np_random_binomial.
  repeat (apply log_silent_bind;
          [first [apply log_silent_sample | apply log_silent_lift] | intros ?]).
  apply log_silent_ret.
Qed.

Lemma log_silent_for_range (cfg : Config float) (ixs : list nat) :
  forall sims, log_silent (for_range cfg ixs sims).
Proof.
  induction ixs as [|i ixs IH]; intros sims; cbn [for_range].
  - apply log_silent_ret.
  - apply log_silent_bind; [apply log_silent_one_run | intros x; apply IH].
Qed.

(** *** What a returned batch looks like, under any configuration *)

Lemma years_spec (n : nat) : years n = map Z.of_nat (seq 1 n).
Proof.
  unfold years. rewrite <- seq_shift, !map_map.
  apply map_ext. intros k. lia.
Qed.

Lemma one_run_inv (cfg : Config float) (sims b : list Run) (i : nat) (w w' : World) :
  one_run cfg sims i w = (Ok b, w') ->
  exists r, b = sims ++ [r] /\ simulation r = i /\
            year r = years (YEARS_REMAINING cfg).
Proof.
  unfold one_run, bind, np_random_normal, np_random_binomial, sample, lift, ret.
  destruct (draws (normal 0.12%float 0.2%float) (YEARS_REMAINING cfg) (rng_state w))
    as [snp g1]. cbn [rng_state log fst snd].
  destruct (draws (normal 0.03%float 0.035%float) (YEARS_REMAINING cfg) g1)
    as [infl g2]. cbn [rng_state log fst snd].
  destruct (draws (binomial 1 (TAIL_RISK_PROBABILITY cfg)) (YEARS_REMAINING cfg) g2)
    as [ind g3]. cbn [rng_state log fst snd].
  destruct (portfolio_annuity cfg (salary_of cfg) snp (drawdown_of cfg infl)
              (scale (TAIL_RISK_COST cfg) (map of_int ind))) as [p|e];
    [|discriminate].
  intros [= <- _]. eexists. repeat split.
Qed.

Lemma for_range_inv (cfg : Config float) (ixs : list nat) :
  forall sims b w w',
    for_range cfg ixs sims w = (Ok b, w') ->
    exists rs, b = sims ++ rs /\ map simulation rs = ixs /\
               Forall (fun r => year r = years (YEARS_REMAINING cfg)) rs.
Proof.
  induction ixs as [|i ixs IH]; intros sims b w w'; cbn [for_range].
  - unfold ret. intros [= <- _]. exists []. now rewrite app_nil_r.
  - unfold bind. destruct (one_run cfg sims i w) as [[b1|e] w1] eqn:E1;
      [|discriminate].
    intros Hrest.
    destruct (one_run_inv _ _ _ _ E1) as (r & -> & Hi & Hy).
    destruct (IH _ _ _ _ Hrest) as (rs & -> & Hids & Hys).
    exists (r :: rs). rewrite <- app_assoc. repeat split.
    + cbn. now rewrite Hi, Hids.
    + now constructor.
Qed.

(** *** A failing lookup aborts the batch in its first run *)

Lemma one_run_raises (cfg : Config float) (e : exn) (sims : list Run) (i : nat)
      (w : World) :
  dict_get (PORTFOLIO_DISTRIBUTION cfg) "cash" = Raise e \/
  (exists cf, dict_get (PORTFOLIO_DISTRIBUTION cfg) "cash" = Ok cf /\
              dict_get (PORTFOLIO_DISTRIBUTION cfg) "equity" = Raise e) ->
  0 < YEARS_REMAINING cfg ->
  fst (one_run cfg sims i w) = Raise e.
Proof.
  intros Hfail Hy.
  unfold one_run, bind, np_random_normal, np_random_binomial, sample, lift, ret.
  pose proof (draws_length (normal 0.12%float 0.2%float) (YEARS_REMAINING cfg)
                (rng_state w)) as L1.
  destruct (draws (normal 0.12%float 0.2%float) (YEARS_REMAINING cfg) (rng_state w))
    as [snp g1]. cbn [rng_state log fst snd] in *.
  pose proof (draws_length (normal 0.03%float 0.035%float) (YEARS_REMAINING cfg) g1)
    as L2.
  destruct (draws (normal 0.03%float 0.035%float) (YEARS_REMAINING cfg) g1)
    as [infl g2]. cbn [rng_state log fst snd] in *.
  pose proof (draws_length (binomial 1 (TAIL_RISK_PROBABILITY cfg))
                (YEARS_REMAINING cfg) g2) as L3.
  destruct (draws (binomial 1 (TAIL_RISK_PROBABILITY cfg)) (YEARS_REMAINING cfg) g2)
    as [ind g3]. cbn [rng_state log fst snd] in *.
  rewrite (first_year_raises cfg (e := e)); [reflexivity | exact Hfail | | | | ].
  - unfold salary_of, salary_growth_of.
    now rewrite scale_length, cumprod_length, repeat_length.
  - now rewrite L1.
  - unfold drawdown_of. now rewrite scale_length, cumprod_length, shift_length, L2.
  - now rewrite scale_length, length_map, L3.
Qed.

(** *** What a run records replays *)

Lemma scenario_run_replays (cfg : Config float) (cf ef : float) (i : nat) (g : rng) :
  dict_get (PORTFOLIO_DISTRIBUTION cfg) "cash" = Ok cf ->
  dict_get (PORTFOLIO_DISTRIBUTION cfg) "equity" = Ok ef ->
  let r := fst (scenario_run cfg cf ef i g) in
  portfolio_annuity cfg (salary r) (snp_return_percent r) (living_expenses r)
                    (tail_risk r) = Ok (recorded_portfolio r).
Proof.
  intros Hc He. unfold scenario_run.
  set (d1 := draws (normal 0.12%float 0.2%float) (YEARS_REMAINING cfg) g).
  set (d2 := draws (normal 0.03%float 0.035%float) (YEARS_REMAINING cfg) (snd d1)).
  set (d3 := draws (binomial 1 (TAIL_RISK_PROBABILITY cfg)) (YEARS_REMAINING cfg) (snd d2)).
  set (tail := scale (TAIL_RISK_COST cfg) (map of_int (fst d3))).
  set (tr := trace cfg cf ef (STARTING_CASH cfg) (STARTING_EQUITY cfg)
               (zip4 (salary_of cfg) (fst d1) (drawdown_of cfg (fst d2)) tail)).
  cbv zeta. unfold recorded_portfolio.
  cbn [fst salary snp_return_percent living_expenses tail_risk cash_position
       equity_position div_return interest_return snp_return columns cash_pos
       equity_pos dividend_pos interest_pos snp_return_pos tail_risk_pos].
  assert (Htail : map y_tail tr = tail).
  { unfold tr. rewrite trace_tail. apply zip4_full.
    - unfold salary_of, salary_growth_of, tail.
      rewrite !scale_length, cumprod_length, repeat_length, length_map.
      symmetry. apply draws_length.
    - unfold tail. rewrite scale_length, length_map. unfold d1, d3.
      now rewrite !draws_length.
    - unfold drawdown_of, tail.
      rewrite !scale_length, cumprod_length, shift_length, length_map.
      unfold d2, d3. now rewrite !draws_length. }
  rewrite Htail. rewrite (portfolio_annuity_trace cfg Hc He).
  fold tr. unfold columns. now rewrite Htail.
Qed.

Lemma batch_from_simulation (cfg : Config float) (cf ef : float) (ixs : list nat) :
  forall g, map simulation (fst (batch_from cfg cf ef ixs g)) = ixs.
Proof.
  induction ixs as [|i ixs IH]; intros g; cbn; [reflexivity|].
  now rewrite IH.
Qed.

End DriverEdgeFacts.

(** X6.  Whatever the configuration, the run count and the outcome (a batch
    or an exception), a call of [monte_carlo] adds exactly one record to the
    log, the INFO line "Running <runs> simulations.", after what was logged
    before; no run logs anything. *)
Theorem monte_carlo_logs_once :
  forall (G : Generator) (cfg : Config float) (runs : nat) (w : World),
    log (snd (monte_carlo cfg runs w)) =
    log w ++ [(INFO, ("Running " ++ str runs ++ " simulations.")%string)].
Proof.
  intros G cfg runs w.
  unfold monte_carlo, bind, logger, np_random_seed.
  now rewrite log_silent_for_range.
Qed.

(** X7.  Whenever [monte_carlo] returns a batch, under any configuration,
    the batch is complete and in run order: it has exactly [runs] entries,
    entry [i] carries [simulation = i], and every run's [year] sequence is
    1, 2, ..., [YEARS_REMAINING]. *)
Theorem monte_carlo_batch_shape :
  forall (G : Generator) (cfg : Config float) (runs : nat) (w : World)
         (batch : list Run),
    fst (monte_carlo cfg runs w) = Ok batch ->
    length batch = runs /\
    map simulation batch = seq 0 runs /\
    Forall (fun r => year r = map Z.of_nat (seq 1 (YEARS_REMAINING cfg))) batch.
Proof.
  intros G cfg runs w batch.
  unfold monte_carlo, bind, logger, np_random_seed.
  set (w0 := {| rng_state := seed 42; log := _ |}).
  destruct (for_range cfg (seq 0 runs) [] w0) as [[b|e] w'] eqn:E;
    cbn [fst]; [|discriminate].
  intros [= ->].
  destruct (for_range_inv _ _ _ _ E) as (rs & -> & Hids & Hys). cbn [app].
  repeat split.
  - now rewrite <- (length_map simulation), Hids, length_seq.
  - exact Hids.
  - apply (Forall_impl _ (P := fun r => year r = years (YEARS_REMAINING cfg)));
      [|exact Hys].
    intros r ->. apply years_spec.
Qed.

Lemma monte_carlo_batch_shape_witness :
  length (fst (@batch_from lcg source_config 0.1%float 0.9%float (seq 0 2) 42%Z)) = 2 /\
  map simulation (fst (@batch_from lcg source_config 0.1%float 0.9%float (seq 0 2) 42%Z))
  = seq 0 2 /\
  Forall (fun r => year r = map Z.of_nat (seq 1 (YEARS_REMAINING source_config)))
         (fst (@batch_from lcg source_config 0.1%float 0.9%float (seq 0 2) 42%Z)).
Proof.
  apply (@monte_carlo_batch_shape lcg source_config 2 lcg_world).
  vm_compute. reflexivity.
Defined.

(** X8.  A dict that lacks "cash", or has "cash" and lacks "equity", makes
    [monte_carlo] raise that [KeyError] out of its first run as soon as the
    horizon and the run count are positive: no batch, not even a partial one,
    is returned. *)
Theorem monte_carlo_missing_key :
  forall (G : Generator) (cfg : Config float) (e : exn) (runs : nat) (w : World),
    dict_get (PORTFOLIO_DISTRIBUTION cfg) "cash" = Raise e \/
    (exists cf, dict_get (PORTFOLIO_DISTRIBUTION cfg) "cash" = Ok cf /\
                dict_get (PORTFOLIO_DISTRIBUTION cfg) "equity" = Raise e) ->
    0 < YEARS_REMAINING cfg ->
    0 < runs ->
    fst (monte_carlo cfg runs w) = Raise e.
Proof.
  intros G cfg e runs w Hfail Hy Hruns.
  destruct runs as [|runs]; [lia|].
  unfold monte_carlo, bind, logger, np_random_seed.
  cbn [seq for_range]. unfold bind.
  set (w0 := {| rng_state := seed 42; log := _ |}).
  pose proof (one_run_raises cfg [] 0 w0 Hfail Hy) as Hrun.
  destruct (one_run cfg [] 0 w0) as [[b|e'] w1]; cbn [fst] in Hrun |- *.
  - discriminate Hrun.
  - exact Hrun.
Qed.

(** The program's constants with the dict [{"equity": 1.0}], which passes
    the module's check. *)
Lemma monte_carlo_missing_key_witness :
  distribution_sums_to_one
    (with_distribution source_config [("equity"%string, 1%float)]) = true /\
  fst (@monte_carlo lcg (with_distribution source_config [("equity"%string, 1%float)])
         3 lcg_world) = Raise (KeyError "cash").
Proof.
  split; [reflexivity|].
  apply (@monte_carlo_missing_key lcg); [left; reflexivity | cbn; lia | lia].
Defined.

(** X9.  What a run records replays: with both allocation keys present,
    feeding a run's own [salary], [snp_return_percent], [living_expenses] and
    [tail_risk] back to [portfolio_annuity] returns exactly the cash, equity,
    dividend, interest, capital-return and tail-risk sequences recorded in
    that run. *)
Theorem monte_carlo_runs_replay :
  forall (G : Generator) (cfg : Config float) (cf ef : float)
         (runs : nat) (w : World),
    dict_get (PORTFOLIO_DISTRIBUTION cfg) "cash" = Ok cf ->
    dict_get (PORTFOLIO_DISTRIBUTION cfg) "equity" = Ok ef ->
    exists batch w',
      monte_carlo cfg runs w = (Ok batch, w') /\
      length batch = runs /\
      Forall (fun r =>
                portfolio_annuity cfg (salary r) (snp_return_percent r)
                                  (living_expenses r) (tail_risk r)
                = Ok (recorded_portfolio r)) batch.
Proof.
  intros G cfg cf ef runs w Hc He.
  do 2 eexists. split; [apply (monte_carlo_ok cfg Hc He)|].
  split; [now rewrite batch_from_length, length_seq|].
  apply batch_from_Forall. intros i g.
  apply (@scenario_run_replays G cfg cf ef i g Hc He).
Qed.

Lemma monte_carlo_runs_replay_witness :
  exists batch w',
    @monte_carlo lcg source_config 2 lcg_world = (Ok batch, w') /\
    length batch = 2 /\
    Forall (fun r =>
              portfolio_annuity source_config (salary r) (snp_return_percent r)
                                (living_expenses r) (tail_risk r)
              = Ok (recorded_portfolio r)) batch.
Proof.
  apply (@monte_carlo_runs_replay lcg source_config 0.1%float 0.9%float 2 lcg_world);
    reflexivity.
Defined.

(** * Properties of the tabulation and of the plotting grid *)

Section DictFacts.

Context {V : Type}.

Lemma py_dict_set_fresh (d : list (nat * V)) (k : nat) (v : V) :
  ~ In k (map fst d) -> py_dict_set d k v = d ++ [(k, v)].
Proof.
  induction d as [|[k' v'] d IH]; intros Hk; cbn; [reflexivity|].
  destruct (Nat.eqb_spec k' k) as [->|Hne].
  - exfalso. apply Hk. now left.
  - rewrite IH; [reflexivity|]. intros Hin. apply Hk. now right.
Qed.

Lemma py_dict_set_present (pre rest : list (nat * V)) (k : nat) (v0 v : V) :
  ~ In k (map fst pre) ->
  py_dict_set (pre ++ (k, v0) :: rest) k v = pre ++ (k, v) :: rest.
Proof.
  induction pre as [|[k' v'] pre IH]; intros Hk; cbn.
  - now rewrite Nat.eqb_refl.
  - destruct (Nat.eqb_spec k' k) as [->|Hne].
    + exfalso. apply Hk. now left.
    + rewrite IH; [reflexivity|]. intros Hin. apply Hk. now right.
Qed.

End DictFacts.

Lemma Forall_exists_Forall2 {X Y : Type} (P : X -> Y -> Prop) (l : list X) :
  Forall (fun x => exists y, P x y) l -> exists ys, Forall2 P l ys.
Proof.
  induction 1 as [|x l [y Hy] _ [ys Hys]].
  - exists []. constructor.
  - exists (y :: ys). now constructor.
Qed.

Lemma run_item_sequence (n : nat) (r : Run) (column : string) :
  run_lengths n r -> In column sequence_keys ->
  exists v, run_item r column = Ok v /\ value_length v = Some n.
Proof.
  intros (H1 & H2 & H3 & H4 & H5 & H6 & H7 & H8 & H9 & H10 & H11 & H12 & H13 & H14)
         Hin.
  cbn in Hin.
  repeat (destruct Hin as [<- | Hin];
          [eexists; split; [reflexivity | cbn; f_equal; assumption]|]).
  contradiction.
Qed.

Lemma run_item_known (r r' : Run) (column : string) (v : Value) :
  run_item r column = Ok v -> exists v', run_item r' column = Ok v'.
Proof.
  unfold run_item.
  repeat match goal with
         | |- context [if String.eqb column ?k then _ else _] =>
             destruct (String.eqb column k); [intros _; eexists; reflexivity|]
         end.
  discriminate.
Qed.

Lemma dict_comprehension_fresh (column : string) (sims : list Run) (vs : list Value) :
  Forall2 (fun r v => run_item r column = Ok v) sims vs ->
  forall d,
    NoDup (map fst d ++ map simulation sims) ->
    dict_comprehension sims column d = Ok (d ++ combine (map simulation sims) vs).
Proof.
  induction 1 as [|r v sims vs Hr _ IH]; intros d Hnd; cbn.
  - now rewrite app_nil_r.
  - rewrite Hr. cbn [bind_result].
    rewrite py_dict_set_fresh.
    + rewrite IH.
      * now rewrite <- app_assoc.
      * rewrite map_app, <- app_assoc. exact Hnd.
    + intros Hin. apply NoDup_remove_2 in Hnd. apply Hnd.
      apply in_or_app. now left.
Qed.

Lemma dict_comprehension_overwrite (column : string) (sims : list Run)
      (vs : list Value) :
  Forall2 (fun r v => run_item r column = Ok v) sims vs ->
  forall pre vsold,
    length vsold = length sims ->
    NoDup (map fst pre ++ map simulation sims) ->
    dict_comprehension sims column (pre ++ combine (map simulation sims) vsold)
    = Ok (pre ++ combine (map simulation sims) vs).
Proof.
  induction 1 as [|r v sims vs Hr _ IH]; intros pre vsold Hlen Hnd.
  - cbn. reflexivity.
  - destruct vsold as [|v0 vsold]; [discriminate Hlen|].
    cbn [map combine dict_comprehension]. rewrite Hr. cbn [bind_result].
    rewrite py_dict_set_present.
    + change (pre ++ (simulation r, v) :: combine (map simulation sims) vsold)
        with (pre ++ [(simulation r, v)] ++ combine (map simulation sims) vsold).
      rewrite app_assoc, IH.
      * now rewrite <- app_assoc.
      * cbn in Hlen. lia.
      * rewrite map_app, <- app_assoc. exact Hnd.
    + intros Hin. apply NoDup_remove_2 in Hnd. apply Hnd.
      apply in_or_app. now left.
Qed.

Lemma dict_comprehension_app (column : string) (sims1 sims2 : list Run) :
  forall d,
    dict_comprehension (sims1 ++ sims2) column d =
    bind_result (dict_comprehension sims1 column d)
                (fun d1 => dict_comprehension sims2 column d1).
Proof.
  induction sims1 as [|r sims1 IH]; intros d; cbn; [reflexivity|].
  destruct (run_item r column) as [v|e]; cbn [bind_result]; [apply IH | reflexivity].
Qed.

Lemma Forall2_conj_split {X Y : Type} (P : X -> Y -> Prop) (Q : Y -> Prop)
      (l : list X) (ys : list Y) :
  Forall2 (fun x y => P x y /\ Q y) l ys -> Forall2 P l ys /\ Forall Q ys.
Proof.
  induction 1 as [|x y l ys [HP HQ] _ [IHP IHQ]]; split; constructor; assumption.
Qed.

Lemma run_item_on_keys (r : Run) (column : string) :
  In column ("simulation"%string :: sequence_keys) ->
  exists v, run_item r column = Ok v.
Proof.
  intros Hin. cbn in Hin.
  repeat (destruct Hin as [<- | Hin]; [eexists; reflexivity|]).
  contradiction.
Qed.

Lemma run_item_unknown (r : Run) (column : string) :
  ~ In column ("simulation"%string :: sequence_keys) ->
  run_item r column = Raise (KeyError column).
Proof.
  intros Hnot. unfold run_item.
  repeat match goal with
         | |- context [if String.eqb column ?k then _ else _] =>
             destruct (String.eqb_spec column k) as [->|_];
             [exfalso; apply Hnot; cbn; tauto|]
         end.
  reflexivity.
Qed.

(** X10.  On a batch returned by [monte_carlo] (both allocation keys
    present) and a key whose value is a sequence, [sim_analysis] hands pandas
    a dict with one entry per run, keyed 0, 1, ..., runs - 1 in run order,
    entry [i] being that field of run [i], each with [YEARS_REMAINING]
    values. *)
Theorem sim_analysis_tabulates :
  forall (Frame : Type) (pd_DataFrame : list (nat * Value) -> result Frame)
         (G : Generator) (cfg : Config float) (cf ef : float)
         (runs : nat) (w : World) (column : string),
    dict_get (PORTFOLIO_DISTRIBUTION cfg) "cash" = Ok cf ->
    dict_get (PORTFOLIO_DISTRIBUTION cfg) "equity" = Ok ef ->
    In column sequence_keys ->
    exists batch w' vs,
      monte_carlo cfg runs w = (Ok batch, w') /\
      Forall2 (fun r v => run_item r column = Ok v) batch vs /\
      Forall (fun v => value_length v = Some (YEARS_REMAINING cfg)) vs /\
      sim_analysis pd_DataFrame batch column
      = pd_DataFrame (combine (seq 0 runs) vs).
Proof.
  intros Frame pd_DataFrame G cfg cf ef runs w column Hc He Hcol.
  set (batch := fst (batch_from cfg cf ef (seq 0 runs) (seed 42))).
  assert (Hall : Forall (fun r => exists v, run_item r column = Ok v /\
                                 value_length v = Some (YEARS_REMAINING cfg)) batch).
  { apply batch_from_Forall. intros i g.
    apply run_item_sequence; [apply scenario_run_lengths | exact Hcol]. }
  destruct (@Forall_exists_Forall2 _ _
              (fun r v => run_item r column = Ok v /\
                          value_length v = Some (YEARS_REMAINING cfg)) _ Hall)
    as [vs Hvs].
  destruct (@Forall2_conj_split _ _ (fun r v => run_item r column = Ok v)
              (fun v => value_length v = Some (YEARS_REMAINING cfg)) _ _ Hvs)
    as [Hitems Hlens].
  exists batch. eexists. exists vs.
  split; [apply (monte_carlo_ok cfg Hc He)|].
  split; [exact Hitems|]. split; [exact Hlens|].
  unfold sim_analysis.
  rewrite (@dict_comprehension_fresh column _ _ Hitems []).
  - cbn [bind_result app]. unfold batch. now rewrite batch_from_simulation.
  - cbn [map app]. unfold batch. rewrite batch_from_simulation. apply seq_NoDup.
Qed.

Lemma sim_analysis_tabulates_witness :
  exists batch w' vs,
    @monte_carlo lcg source_config 3 lcg_world = (Ok batch, w') /\
    Forall2 (fun r v => run_item r "nest_egg" = Ok v) batch vs /\
    Forall (fun v => value_length v = Some (YEARS_REMAINING source_config)) vs /\
    sim_analysis (@Ok (list (nat * Value))) batch "nest_egg"
    = Ok (combine (seq 0 3) vs).
Proof.
  apply (@sim_analysis_tabulates (list (nat * Value)) (@Ok _) lcg source_config
           0.1%float 0.9%float 3 lcg_world "nest_egg").
  - reflexivity.
  - reflexivity.
  - cbn. tauto.
Defined.

(** X11.  Asked for a column that is not one of the fifteen keys of a run,
    [sim_analysis] raises [KeyError] naming that column as soon as there is
    one run to read; pandas is never reached. *)
Theorem sim_analysis_unknown_column :
  forall (Frame : Type) (pd_DataFrame : list (nat * Value) -> result Frame)
         (sims : list Run) (column : string),
    ~ In column ("simulation"%string :: sequence_keys) ->
    0 < length sims ->
    sim_analysis pd_DataFrame sims column = Raise (KeyError column).
Proof.
  intros Frame pd_DataFrame [|r sims] column Hnot Hlen; [cbn in Hlen; lia|].
  unfold sim_analysis. cbn [dict_comprehension].
  now rewrite (run_item_unknown r Hnot).
Qed.

Lemma sim_analysis_unknown_column_witness :
  sim_analysis (@Ok (list (nat * Value)))
    (fst (@batch_from lcg source_config 0.1%float 0.9%float (seq 0 1) 42%Z))
    "networth"
  = Raise (KeyError "networth").
Proof.
  apply sim_analysis_unknown_column.
  - cbn. intuition discriminate.
  - cbn. lia.
Defined.

(** X12.  Runs are keyed by their [simulation] number, so tabulating two
    batches glued together keeps the columns of the second only: if both
    lists of runs are numbered 0, 1, ..., n - 1, as every batch of
    [monte_carlo] is, [sim_analysis] on their concatenation gives what it
    gives on the second list alone. *)
Theorem sim_analysis_last_batch_wins :
  forall (Frame : Type) (pd_DataFrame : list (nat * Value) -> result Frame)
         (sims1 sims2 : list Run) (n : nat) (column : string),
    In column ("simulation"%string :: sequence_keys) ->
    map simulation sims1 = seq 0 n ->
    map simulation sims2 = seq 0 n ->
    sim_analysis pd_DataFrame (sims1 ++ sims2) column
    = sim_analysis pd_DataFrame sims2 column.
Proof.
  intros Frame pd_DataFrame sims1 sims2 n column Hcol Hid1 Hid2.
  assert (H1 : exists vs, Forall2 (fun r v => run_item r column = Ok v) sims1 vs).
  { apply Forall_exists_Forall2, Forall_forall. intros r _.
    now apply run_item_on_keys. }
  assert (H2 : exists vs, Forall2 (fun r v => run_item r column = Ok v) sims2 vs).
  { apply Forall_exists_Forall2, Forall_forall. intros r _.
    now apply run_item_on_keys. }
  destruct H1 as [vs1 H1], H2 as [vs2 H2].
  assert (Hnd : NoDup (map simulation sims2)) by (rewrite Hid2; apply seq_NoDup).
  unfold sim_analysis. rewrite dict_comprehension_app.
  rewrite (@dict_comprehension_fresh column _ _ H1 []) by (cbn [map app]; rewrite Hid1; apply seq_NoDup).
  rewrite (@dict_comprehension_fresh column _ _ H2 []) by exact Hnd.
  cbn [bind_result app]. rewrite Hid1, <- Hid2.
  assert (Hlen : length vs1 = length sims2).
  { rewrite <- (Forall2_length H1), <- (length_map simulation sims1),
      <- (length_map simulation sims2). now rewrite Hid1, Hid2. }
  pose proof (@dict_comprehension_overwrite column _ _ H2 [] vs1 Hlen Hnd) as Hov.
  cbn [app] in Hov. now rewrite Hov.
Qed.

Lemma sim_analysis_last_batch_wins_witness :
  sim_analysis (@Ok (list (nat * Value)))
    (fst (@batch_from lcg source_config 0.1%float 0.9%float (seq 0 2) 42%Z)
     ++ fst (@batch_from lcg source_config 0.1%float 0.9%float (seq 0 2) 7%Z))
    "inflation"
  = sim_analysis (@Ok (list (nat * Value)))
      (fst (@batch_from lcg source_config 0.1%float 0.9%float (seq 0 2) 7%Z))
      "inflation".
Proof.
  apply (@sim_analysis_last_batch_wins (list (nat * Value)) (@Ok _) _ _ 2).
  - cbn. tauto.
  - apply batch_from_simulation.
  - apply batch_from_simulation.
Defined.

(** X13.  The grid the script asks of [plt.subplots] has the least number of
    rows that holds all metrics: for any number of metrics and a positive
    number of columns, rows * columns is at least the number of metrics and
    exceeds it by less than one row. *)
Theorem subplot_rows_is_ceiling :
  forall n_metrics columns : nat,
    0 < columns ->
    n_metrics <= subplot_rows n_metrics columns * columns /\
    subplot_rows n_metrics columns * columns < n_metrics + columns.
Proof.
  intros n c Hc. unfold subplot_rows, kicker.
  pose proof (Nat.div_mod_eq n c) as Hdm.
  pose proof (Nat.mod_upper_bound n c ltac:(lia)) as Hub.
  destruct (Nat.ltb_spec 0 (n mod c)); nia.
Qed.

Lemma subplot_rows_is_ceiling_witness :
  6 <= subplot_rows 6 2 * 2 /\ subplot_rows 6 2 * 2 < 6 + 2.
Proof.
  apply subplot_rows_is_ceiling. lia.
Defined.

(** X14.  With the script's two columns, every metric is drawn in a cell of
    its own inside the grid: for [i] below the number of metrics, the row
    [i // 2] is below the number of rows asked for and the column [i % 2] is
    below 2, and two metrics never share a cell. *)
Theorem axes_index_fits_grid :
  forall n_metrics i j : nat,
    i < n_metrics ->
    fst (axes_index i) < subplot_rows n_metrics 2 /\
    snd (axes_index i) < 2 /\
    (axes_index i = axes_index j -> i = j).
Proof.
  intros n i j Hi. unfold axes_index, subplot_rows, kicker. cbn [fst snd].
  pose proof (Nat.div_mod_eq n 2) as Hn.
  pose proof (Nat.div_mod_eq i 2) as Hdi.
  pose proof (Nat.div_mod_eq j 2) as Hdj.
  pose proof (Nat.mod_upper_bound n 2 ltac:(lia)) as Hnu.
  pose proof (Nat.mod_upper_bound i 2 ltac:(lia)) as Hiu.
  repeat split.
  - destruct (Nat.ltb_spec 0 (n mod 2)); lia.
  - exact Hiu.
  - intros Heq.
    assert (Hq : i / 2 = j / 2) by exact (f_equal fst Heq).
    assert (Hr : i mod 2 = j mod 2) by exact (f_equal snd Heq).
    lia.
Qed.

Lemma axes_index_fits_grid_witness :
  fst (axes_index 5) < subplot_rows 6 2 /\
  snd (axes_index 5) < 2 /\
  (axes_index 5 = axes_index 4 -> 5 = 4).
Proof.
  apply axes_index_fits_grid. lia.
Defined.

(** * Two more edge and scaling facts *)

Lemma one_run_zero_horizon (G : Generator) (cfg : Config float)
      (sims : list Run) (i : nat) (w : World) :
  YEARS_REMAINING cfg = 0 ->
  one_run cfg sims i w = (Ok (sims ++ [empty_run i]), w).
Proof.
  intros Hy.
  unfold one_run, bind, np_random_normal, np_random_binomial, sample, lift, ret,
    salary_of, salary_growth_of, drawdown_of.
  rewrite Hy. destruct w as [g l]. reflexivity.
Qed.

Lemma for_range_zero_horizon (G : Generator) (cfg : Config float) (ixs : list nat) :
  YEARS_REMAINING cfg = 0 ->
  forall sims w,
    for_range cfg ixs sims w = (Ok (sims ++ map empty_run ixs), w).
Proof.
  intros Hy. induction ixs as [|i ixs IH]; intros sims w; cbn [for_range map].
  - unfold ret. now rewrite app_nil_r.
  - unfold bind. rewrite (one_run_zero_horizon _ _ _ _ Hy), IH.
    now rewrite <- app_assoc.
Qed.

(** X15.  Over a horizon of zero years [monte_carlo] never looks the
    allocation up and draws nothing: under any dict it returns [runs] runs
    numbered in order, every sequence of every run empty, and leaves the
    generator as [seed(42)] set it. *)
Theorem monte_carlo_zero_horizon :
  forall (G : Generator) (cfg : Config float) (runs : nat) (w : World),
    YEARS_REMAINING cfg = 0 ->
    monte_carlo cfg runs w =
    (Ok (map empty_run (seq 0 runs)),
     {| rng_state := seed 42;
        log := log w ++ [(INFO, ("Running " ++ str runs ++ " simulations.")%string)] |}).
Proof.
  intros G cfg runs w Hy.
  unfold monte_carlo, bind, logger, np_random_seed.
  now rewrite (for_range_zero_horizon _ _ Hy).
Qed.

Lemma monte_carlo_zero_horizon_witness :
  @monte_carlo lcg
    {| YEARS_REMAINING := 0;
       STARTING_EQUITY := 6e4%float; STARTING_CASH := 6e4%float;
       AFTER_TAX_SALARY := 1e5%float; FIXED_EXPENSES := 5e4%float;
       SALARY_GROWTH_RATE := 0.02%float;
       PORTFOLIO_DISTRIBUTION := [];
       SNP_DIV_YIELD := 0.014%float; INTEREST_RATE := 0.03%float;
       TAIL_RISK_COST := 3e4%float; TAIL_RISK_PROBABILITY := (1 / 30)%float;
       RUNS := 1 |} 2 lcg_world
  = (Ok [empty_run 0; empty_run 1],
     @Build_World lcg 42%Z [(INFO, "Running 2 simulations."%string)]).
Proof.
  apply (@monte_carlo_zero_horizon lcg). reflexivity.
Defined.

Section ExactScaling.

Local Open Scope Qc_scope.

Variable cfg : Config Qc.
Variables cf ef k : Qc.

Lemma year_out_scaled (C E : Qc) (row : Qc * Qc * Qc * Qc) :
  year_out cfg cf ef (k * C) (k * E) (scale_row k row)
  = scale_year k (year_out cfg cf ef C E row).
Proof.
  destruct row as [[[sal snp_perc] dd] tail].
  unfold year_out, scale_year, scale_row, net_distribution. cbn.
  f_equal; ring.
Qed.

Lemma trace_scaled (rows : list (Qc * Qc * Qc * Qc)) :
  forall C E,
    trace cfg cf ef (k * C) (k * E) (map (scale_row k) rows)
    = map (scale_year k) (trace cfg cf ef C E rows).
Proof.
  induction rows as [|row rows IH]; intros C E; [reflexivity|].
  cbn [map trace]. rewrite year_out_scaled. cbn [scale_year y_cash y_equity].
  now rewrite IH.
Qed.

Lemma zip4_scaled (s m d t : list Qc) :
  zip4 (scale k s) m (scale k d) (scale k t) = map (scale_row k) (zip4 s m d t).
Proof.
  revert m d t.
  induction s as [|x s IH]; intros [|y m] [|z d] [|w t]; cbn; try reflexivity.
  now rewrite <- IH.
Qed.

Lemma columns_scaled (tr : list (YearOut Qc)) :
  columns (map (scale_year k) tr) = scale_portfolio k (columns tr).
Proof.
  unfold columns, scale_portfolio, scale. cbn. now rewrite !map_map.
Qed.

End ExactScaling.

(** X16.  In exact arithmetic the recurrence is homogeneous in money: with
    both allocation keys present, multiplying the starting balances and the
    salary, drawdown and tail-cost sequences by one factor [k], and leaving
    the market returns as they are, multiplies every output sequence by
    [k]. *)
Theorem portfolio_annuity_scales_exact :
  forall (cfg : Config Qc) (cf ef k : Qc) (s m d t : list Qc),
    dict_get (PORTFOLIO_DISTRIBUTION cfg) "cash" = Ok cf ->
    dict_get (PORTFOLIO_DISTRIBUTION cfg) "equity" = Ok ef ->
    exists p,
      portfolio_annuity cfg s m d t = Ok p /\
      portfolio_annuity
        (with_balances cfg (k * STARTING_CASH cfg)%Qc (k * STARTING_EQUITY cfg)%Qc)
        (scale k s) m (scale k d) (scale k t)
      = Ok (scale_portfolio k p).
Proof.
  intros cfg cf ef k s m d t Hc He.
  eexists. split; [apply (portfolio_annuity_trace cfg Hc He)|].
  rewrite (@portfolio_annuity_trace Qc Qc_Scalar (with_balances cfg _ _) cf ef Hc He).
  cbn [with_balances STARTING_CASH STARTING_EQUITY].
  rewrite trace_with_balances, zip4_scaled, trace_scaled, columns_scaled.
  reflexivity.
Qed.

Lemma portfolio_annuity_scales_exact_witness :
  exists p,
    portfolio_annuity exact_config
      [Q2Qc 102000; Q2Qc 104040] [Q2Qc 0.12; Q2Qc (-0.05)]
      [Q2Qc 51500; Q2Qc 53045] [Q2Qc 0; Q2Qc 30000] = Ok p /\
    portfolio_annuity
      (with_balances exact_config (Q2Qc 0.01 * STARTING_CASH exact_config)%Qc
                                  (Q2Qc 0.01 * STARTING_EQUITY exact_config)%Qc)
      (scale (Q2Qc 0.01) [Q2Qc 102000; Q2Qc 104040]) [Q2Qc 0.12; Q2Qc (-0.05)]
      (scale (Q2Qc 0.01) [Q2Qc 51500; Q2Qc 53045])
      (scale (Q2Qc 0.01) [Q2Qc 0; Q2Qc 30000])
    = Ok (scale_portfolio (Q2Qc 0.01) p).
Proof.
  apply (@portfolio_annuity_scales_exact exact_config (Q2Qc 0.1) (Q2Qc 0.9));
    reflexivity.
Defined.
